(** * Kalshi trade-API client: request signing and endpoint marshalling

    A shallow embedding of [skills/kalshi-trading/scripts/kalshi_client.py]
    (class [KalshiClient]).  Python dictionaries are finite maps with string
    keys, exceptions are values of [exn], and the code's effects (reading
    [os.environ], reading the clock, signing, calling the HTTP transport)
    are threaded through an explicit [World]. *)

From stdpp Require Import base option gmap strings list fin_maps pretty.
From Stdlib Require Import ZArith.

Local Open Scope Z_scope.
Local Open Scope string_scope.

(** ** Python values *)

(** The values that travel in query mappings, JSON bodies and parsed
    responses. *)
#[warnings="-register-all"]
Inductive pyval : Type :=
  | PyNone
  | PyBool (b : bool)
  | PyInt (z : Z)
  | PyStr (s : string)
  | PyList (l : list pyval)
  | PyDict (d : gmap string pyval).

(** Truth value of an [Optional[str]] argument: [None] and the empty string
    are falsy. *)
Definition truthy_str (o : option string) : bool :=
  match o with
  | Some s => negb (String.eqb s EmptyString)
  | None => false
  end.

(** Truth value of an [Optional[int]] argument: [None] and [0] are falsy. *)
Definition truthy_int (o : option Z) : bool :=
  match o with
  | Some z => negb (Z.eqb z 0)
  | None => false
  end.

(** ** Requests, responses, exceptions *)

Record Request : Type := mkRequest {
  req_method : string;
  req_url : string;
  req_headers : gmap string string;
  req_params : option (gmap string pyval);
  req_json : option (gmap string pyval)
}.

Record Response : Type := mkResponse {
  status_code : Z;
  text : string
}.

Inductive exn : Type :=
  | ValueError (msg : string)
  | HTTPError (r : Response)
  | JSONDecodeError (body : string)
  | AttributeError (msg : string)
  | CryptoError (msg : string)
  | ConnectionError (msg : string).

(** ** The world the client runs in *)

Record World : Type := mkWorld {
  environ : gmap string string;
  ticks : nat;
  signed : list (list Byte.byte);
  sent : list Request
}.


(** ** A state-and-exception monad *)

Definition M (A : Type) : Type := World -> (exn + A) * World.

Definition ret {A} (a : A) : M A := fun w => (inr a, w).

Definition raise {A} (e : exn) : M A := fun w => (inl e, w).

Definition bind {A B} (m : M A) (k : A -> M B) : M B :=
  fun w =>
    match m w with
    | (inr a, w') => k a w'
    | (inl e, w') => (inl e, w')
    end.

Declare Scope py_scope.
Delimit Scope py_scope with py.
Notation "'let*' x ':=' c 'in' k" := (bind c (fun x => k))
  (at level 10, x name, c at level 100, k at level 200) : py_scope.
Notation "c ';;;' k" := (bind c (fun _ => k))
  (at level 100, k at level 200, right associativity) : py_scope.
Local Open Scope py_scope.

(** [type(value).__name__]. *)
Definition type_name (value : pyval) : string :=
  match value with
  | PyNone => "NoneType"
  | PyBool _ => "bool"
  | PyInt _ => "int"
  | PyStr _ => "str"
  | PyList _ => "list"
  | PyDict _ => "dict"
  end.

(** The message of the [AttributeError] Python raises for [value.get]. *)
Definition no_get (value : pyval) : string :=
  "'" +:+ type_name value +:+ "' object has no attribute 'get'".

(** [x.get(key, default)] on a parsed response: only dictionaries have
    [get]. *)
Definition py_get (result : pyval) (key : string) (dflt : pyval) : M pyval :=
  match result with
  | PyDict d => ret (default dflt (d !! key))
  | _ => raise (AttributeError (no_get result))
  end.

(** [response.raise_for_status()] of the [requests] library, whose body is
    [if 400 <= status_code < 500: ... elif 500 <= status_code < 600: ...]
    followed by [raise HTTPError(msg, response=self)] when either branch was
    taken: an [HTTPError] that carries the response for a 4xx or 5xx status,
    nothing otherwise. *)
Definition raise_for_status (r : Response) : M unit :=
  if Z.leb 400 (status_code r) && Z.ltb (status_code r) 600
  then raise (HTTPError r)
  else ret tt.

(** [message.encode()]. *)
Definition encode (s : string) : list Byte.byte := String.list_byte_of_string s.

(** [str(n)] for an integer. *)
Definition str (n : Z) : string := pretty n.

Example str_ts : str 1700000000000 = "1700000000000".
Proof. vm_compute. reflexivity. Qed.

Example str_neg : str (-42) = "-42".
Proof. vm_compute. reflexivity. Qed.

(** [if value: params[key] = value] for an [Optional[str]] argument. *)
Definition set_if_str (key : string) (value : option string)
    (params : gmap string pyval) : gmap string pyval :=
  match value with
  | Some s => if String.eqb s EmptyString then params else <[key := PyStr s]> params
  | None => params
  end.

(** [if value: params[key] = value] for an [Optional[int]] argument. *)
Definition set_if_int (key : string) (value : option Z)
    (params : gmap string pyval) : gmap string pyval :=
  match value with
  | Some z => if Z.eqb z 0 then params else <[key := PyInt z]> params
  | None => params
  end.

(** [value or fallback] where [fallback] is a string. *)
Definition or_default (value : option string) (fallback : string) : string :=
  match value with
  | Some s => if String.eqb s EmptyString then fallback else s
  | None => fallback
  end.

Definition lift {A} (r : exn + A) : M A :=
  match r with
  | inl e => raise e
  | inr a => ret a
  end.

(** [os.environ.get(name)]. *)
Definition os_environ_get (name : string) : M (option string) :=
  fun w => (inr (environ w !! name), w).

(** [value or os.environ.get(name)]: the environment is consulted only when
    [value] is falsy. *)
Definition or_environ (value : option string) (name : string)
    : M (option string) :=
  if truthy_str value then ret value else os_environ_get name.

(** ** The collaborators the script imports

    The key type and PEM loader of [cryptography], its RSA signing primitive
    (PKCS#1 v1.5 padding, SHA-256 digest), [base64.b64encode(...).decode()],
    the value of [int(time.time() * 1000)] at the n-th reading of the clock,
    [requests.request] (which sees the calls made before), and the JSON
    parser behind [response.json()]. *)
Class Collaborators : Type := {
  PrivateKey : Type;
  load_pem_private_key : list Byte.byte -> exn + PrivateKey;
  rsa_sign : PrivateKey -> list Byte.byte -> exn + list Byte.byte;
  b64encode : list Byte.byte -> string;
  clock_ms : nat -> Z;
  transport : list Request -> Request -> exn + Response;
  json_loads : string -> option pyval
}.

(** ** The client *)

Section Client.

Context {ext : Collaborators}.

Record KalshiClient : Type := mkClient {
  api_key : option string;
  private_key_pem : option string;
  base_url : string;
  _private_key : option PrivateKey
}.

Definition DEFAULT_BASE_URL : string :=
  "https://api.elections.kalshi.com/trade-api/v2".
Definition DEMO_BASE_URL : string :=
  "https://demo-api.kalshi.co/trade-api/v2".

(** [int(time.time() * 1000)]: one reading of the clock. *)
Definition time_ms : M Z :=
  fun w => (inr (clock_ms (ticks w)),
            mkWorld (environ w) (S (ticks w)) (signed w) (sent w)).

(** [key.sign(message, padding.PKCS1v15(), hashes.SHA256())]. *)
Definition sign (key : PrivateKey) (message : list Byte.byte)
    : M (list Byte.byte) :=
  fun w =>
    (rsa_sign key message,
     mkWorld (environ w) (ticks w) (message :: signed w) (sent w)).

(** [requests.request(method=..., url=..., headers=..., params=...,
    json=...)]. *)
Definition requests_request (r : Request) : M Response :=
  fun w =>
    (transport (sent w) r,
     mkWorld (environ w) (ticks w) (signed w) (r :: sent w)).

(** [response.json()]. *)
Definition response_json (r : Response) : M pyval :=
  match json_loads (text r) with
  | Some v => ret v
  | None => raise (JSONDecodeError (text r))
  end.

Definition __init__ (api_key private_key_pem base_url : option string)
    (demo : bool) : M KalshiClient :=
  let* self_api_key := or_environ api_key "KALSHI_API_KEY" in
  let* self_private_key_pem :=
    or_environ private_key_pem "KALSHI_PRIVATE_KEY" in
  let self_base_url :=
    if demo then DEMO_BASE_URL
    else or_default base_url DEFAULT_BASE_URL in
  let* self_private_key :=
    match self_private_key_pem with
    | Some pem =>
        if String.eqb pem EmptyString then ret None
        else let* key := lift (load_pem_private_key (encode pem)) in
             ret (Some key)
    | None => ret None
    end in
  ret (mkClient self_api_key self_private_key_pem self_base_url
         self_private_key).

Definition auth_required : string :=
  "API key and private key required for authenticated requests".

(** The guard [not self.api_key or not self._private_key] raises when the
    key identifier is [None] or empty, or no private key was loaded. *)
Definition _get_auth_headers (self : KalshiClient) (method path : string)
    : M (gmap string string) :=
  match api_key self, _private_key self with
  | Some key_id, Some key =>
      if String.eqb key_id EmptyString then raise (ValueError auth_required)
      else
        let* now := time_ms in
        let timestamp := str now in
        let message := timestamp +:+ method +:+ path in
        let* signature := sign key (encode message) in
        ret (<["KALSHI-ACCESS-KEY" := key_id]>
             (<["KALSHI-ACCESS-SIGNATURE" := b64encode signature]>
             (<["KALSHI-ACCESS-TIMESTAMP" := timestamp]>
             (<["Content-Type" := "application/json"]> ∅))))
  | _, _ => raise (ValueError auth_required)
  end.

Definition _request (self : KalshiClient) (method path : string)
    (params json_data : option (gmap string pyval)) (authenticated : bool)
    : M pyval :=
  let url := base_url self +:+ path in
  let* headers :=
    if authenticated then _get_auth_headers self method path
    else ret (<["Content-Type" := "application/json"]> ∅) in
  let* response :=
    requests_request (mkRequest method url headers params json_data) in
  raise_for_status response ;;;
  response_json response.

(** *** Public endpoints

    Arguments with a non-[None] default ([limit = 100], [status = "open"],
    [settlement_status = "unsettled"], [status = "resting"],
    [order_type = "limit"]) are passed explicitly; [Optional[...]]
    arguments are options. *)

Definition get_markets (self : KalshiClient) (limit : Z) (status : string)
    (cursor event_ticker : option string) : M pyval :=
  let params :=
    <["limit" := PyInt limit]> (<["status" := PyStr status]> ∅) in
  let params := set_if_str "cursor" cursor params in
  let params := set_if_str "event_ticker" event_ticker params in
  let* result := _request self "GET" "/markets" (Some params) None false in
  py_get result "markets" (PyList []).

Definition get_market (self : KalshiClient) (ticker : string) : M pyval :=
  let* result :=
    _request self "GET" ("/markets/" +:+ ticker) None None false in
  py_get result "market" (PyDict ∅).

Definition get_orderbook (self : KalshiClient) (ticker : string)
    (depth : option Z) : M pyval :=
  let params := ∅ in
  let params := set_if_int "depth" depth params in
  let* result :=
    _request self "GET" ("/markets/" +:+ ticker +:+ "/orderbook")
      (Some params) None false in
  py_get result "orderbook" (PyDict ∅).

Definition get_trades (self : KalshiClient) (ticker : string) (limit : Z)
    (cursor : option string) : M pyval :=
  let params := <["limit" := PyInt limit]> ∅ in
  let params := set_if_str "cursor" cursor params in
  let* result :=
    _request self "GET" ("/markets/" +:+ ticker +:+ "/trades")
      (Some params) None false in
  py_get result "trades" (PyList []).

Definition get_events (self : KalshiClient) (limit : Z) (status : string)
    (cursor : option string) : M pyval :=
  let params :=
    <["limit" := PyInt limit]> (<["status" := PyStr status]> ∅) in
  let params := set_if_str "cursor" cursor params in
  let* result := _request self "GET" "/events" (Some params) None false in
  py_get result "events" (PyList []).

Definition get_event (self : KalshiClient) (event_ticker : string)
    : M pyval :=
  let* result :=
    _request self "GET" ("/events/" +:+ event_ticker) None None false in
  py_get result "event" (PyDict ∅).

(** *** Authenticated endpoints *)

Definition get_balance (self : KalshiClient) : M pyval :=
  _request self "GET" "/portfolio/balance" None None true.

Definition get_positions (self : KalshiClient) (ticker : option string)
    (settlement_status : string) : M pyval :=
  let params := <["settlement_status" := PyStr settlement_status]> ∅ in
  let params := set_if_str "ticker" ticker params in
  let* result :=
    _request self "GET" "/portfolio/positions" (Some params) None true in
  py_get result "market_positions" (PyList []).

Definition get_orders (self : KalshiClient) (ticker : option string)
    (status : string) : M pyval :=
  let params := <["status" := PyStr status]> ∅ in
  let params := set_if_str "ticker" ticker params in
  let* result :=
    _request self "GET" "/portfolio/orders" (Some params) None true in
  py_get result "orders" (PyList []).

Definition create_order (self : KalshiClient) (ticker side action : string)
    (count price : Z) (order_type : string) : M pyval :=
  let payload :=
    <["ticker" := PyStr ticker]>
    (<["side" := PyStr side]>
    (<["action" := PyStr action]>
    (<["type" := PyStr order_type]>
    (<["count" := PyInt count]> ∅)))) in
  let payload :=
    if String.eqb order_type "limit" then
      if String.eqb side "yes" then <["yes_price" := PyInt price]> payload
      else <["no_price" := PyInt price]> payload
    else payload in
  let* result :=
    _request self "POST" "/portfolio/orders" None (Some payload) true in
  py_get result "order" (PyDict ∅).

Definition cancel_order (self : KalshiClient) (order_id : string)
    : M pyval :=
  let* result :=
    _request self "DELETE" ("/portfolio/orders/" +:+ order_id) None None
      true in
  py_get result "order" (PyDict ∅).

(** *** Calls that leave arguments out

    A parameter with a default other than [None] in its signature may be
    left out by the caller and then takes that default; for such a
    parameter [None] stands for "left out", [Some value] for "supplied". *)







End Client.

(** ** The command line

    [main] after [parser.parse_args()].  What the script prints goes to the
    [stdout] of a [Terminal]: one entry per [print] call, the most recent
    first. *)

(** The namespace [parser.parse_args()] returns: the subcommand (absent
    when none was given) and the attributes the subcommands declare. *)
Record Namespace : Type := mkNamespace {
  args_command : option string;
  args_limit : Z;
  args_status : string;
  args_ticker : string
}.

(** What [main] can raise: an exception of the client, or one of the
    script's own subscripts, loops and divisions. *)
Inductive cli_exn : Type :=
  | Raised (e : exn)
  | KeyError (key : string)
  | TypeError
  | OverflowError.

(** Formatting left to Python: how an f-string renders a value
    ([format(value, "")]), [json.dumps(value, indent=2)], the text
    [parser.print_help()] prints, and [f"{value / 100:.2f}"]: the amount
    with two decimals, or the exception the division raises (a [TypeError]
    for a value that is not a number, an [OverflowError] for an integer too
    large for a float). *)
Class Console : Type := {
  format_value : pyval -> string;
  json_dumps : pyval -> string;
  format_dollars : pyval -> cli_exn + string;
  help_text : string
}.

Record Terminal : Type := mkTerminal {
  world : World;
  stdout : list string
}.

Definition CLI (A : Type) : Type := Terminal -> (cli_exn + A) * Terminal.

Definition cli_ret {A} (a : A) : CLI A := fun t => (inr a, t).

Definition cli_raise {A} (e : cli_exn) : CLI A := fun t => (inl e, t).

Definition cli_bind {A B} (m : CLI A) (k : A -> CLI B) : CLI B :=
  fun t =>
    match m t with
    | (inr a, t') => k a t'
    | (inl e, t') => (inl e, t')
    end.

Notation "'let+' x ':=' c 'in' k" := (cli_bind c (fun x => k))
  (at level 10, x name, c at level 100, k at level 200) : py_scope.
Notation "c ';;+' k" := (cli_bind c (fun _ => k))
  (at level 100, k at level 200, right associativity) : py_scope.

(** A call into the client from the script. *)
Definition call {A} (m : M A) : CLI A :=
  fun t =>
    match m (world t) with
    | (inr a, w') => (inr a, mkTerminal w' (stdout t))
    | (inl e, w') => (inl (Raised e), mkTerminal w' (stdout t))
    end.

(** [print(line)]. *)
Definition print (line : string) : CLI unit :=
  fun t => (inr tt, mkTerminal (world t) (line :: stdout t)).

(** [value[key]] for a string key: a dictionary gives the entry or a
    [KeyError]; lists, strings, numbers and [None] give a [TypeError]. *)
Definition subscript (value : pyval) (key : string) : CLI pyval :=
  match value with
  | PyDict d =>
      match d !! key with
      | Some entry => cli_ret entry
      | None => cli_raise (KeyError key)
      end
  | _ => cli_raise TypeError
  end.

Fixpoint for_each (items : list pyval) (body : pyval -> CLI unit)
    : CLI unit :=
  match items with
  | [] => cli_ret tt
  | item :: rest => body item ;;+ for_each rest body
  end.

(** [for item in iterable: body].  A list gives its elements; a dictionary
    its keys (in the order of the finite map, not of insertion); a string
    its characters, one byte each; numbers, booleans and [None] are not
    iterable. *)
Definition for_in (iterable : pyval) (body : pyval -> CLI unit) : CLI unit :=
  match iterable with
  | PyList items => for_each items body
  | PyDict d => for_each (PyStr <$> (map_to_list d).*1) body
  | PyStr s =>
      for_each
        ((fun c => PyStr (String c EmptyString)) <$> String.list_ascii_of_string s)
        body
  | _ => cli_raise TypeError
  end.

(** The cent sign, U+00A2, in UTF-8. *)
Definition cent : string :=
  String (Ascii.ascii_of_nat 194) (String (Ascii.ascii_of_nat 162) EmptyString).

Section Cli.

Context {ext : Collaborators} {console : Console}.

(** [args.command == name]. *)
Definition command_is (args : Namespace) (name : string) : bool :=
  match args_command args with
  | Some command => String.eqb command name
  | None => false
  end.

Definition main (args : Namespace) : CLI unit :=
  if negb (truthy_str (args_command args)) then print help_text
  else
    let+ client := call (__init__ None None None false) in
    if command_is args "markets" then
      let+ result :=
        call (get_markets client (args_limit args) (args_status args) None
                None) in
      for_in result (fun market =>
        let+ ticker := subscript market "ticker" in
        let+ title := subscript market "title" in
        print (format_value ticker +:+ ": " +:+ format_value title) ;;+
        let+ yes_bid := call (py_get market "yes_bid" (PyStr "N/A")) in
        let+ yes_ask := call (py_get market "yes_ask" (PyStr "N/A")) in
        print ("  Yes: " +:+ format_value yes_bid +:+ cent +:+ " - " +:+
               format_value yes_ask +:+ cent) ;;+
        print EmptyString)
    else if command_is args "market" then
      let+ result := call (get_market client (args_ticker args)) in
      print (json_dumps result)
    else if command_is args "orderbook" then
      let+ result := call (get_orderbook client (args_ticker args) None) in
      print (json_dumps result)
    else if command_is args "balance" then
      let+ result := call (get_balance client) in
      let+ balance := call (py_get result "balance" (PyInt 0)) in
      match format_dollars balance with
      | inr dollars => print ("Balance: $" +:+ dollars)
      | inl e => cli_raise e
      end
    else if command_is args "positions" then
      let+ result := call (get_positions client None "unsettled") in
      for_in result (fun pos =>
        let+ ticker := subscript pos "ticker" in
        let+ position := subscript pos "position" in
        print (format_value ticker +:+ ": " +:+ format_value position +:+
               " contracts"))
    else cli_ret tt.

End Cli.

(** ** Shapes used in the statements *)

Section Shapes.

Context {ext : Collaborators}.

(** The header mapping a successful signing returns. *)
Definition signed_headers (key_id timestamp : string)
    (signature : list Byte.byte) : gmap string string :=
  <["KALSHI-ACCESS-KEY" := key_id]>
  (<["KALSHI-ACCESS-SIGNATURE" := b64encode signature]>
  (<["KALSHI-ACCESS-TIMESTAMP" := timestamp]>
  (<["Content-Type" := "application/json"]> ∅))).

(** The plain header of an unauthenticated request. *)
Definition plain_headers : gmap string string :=
  <["Content-Type" := "application/json"]> ∅.

(** What [_request] does once the headers are known. *)
Definition dispatch (req : Request) : M pyval :=
  let* response := requests_request req in
  raise_for_status response ;;;
  response_json response.

(** The world after one more reading of the clock and one more signed
    message. *)
Definition after_signing (message : list Byte.byte) (w : World) : World :=
  mkWorld (environ w) (S (ticks w)) (message :: signed w) (sent w).

(** The world after one more transport call. *)
Definition after_sending (req : Request) (w : World) : World :=
  mkWorld (environ w) (ticks w) (signed w) (req :: sent w).



(** The JSON body of an order request carries the price under the key of
    its side for a limit order, and under no key for a market order. *)
Definition price_under_side_key (side : string) (price : Z)
    (order_type : string) (req : Request) : Prop :=
  exists payload,
    req_json req = Some payload
    /\ (order_type = "limit" -> side = "yes" ->
        payload !! "yes_price" = Some (PyInt price)
        /\ payload !! "no_price" = None)
    /\ (order_type = "limit" -> side <> "yes" ->
        payload !! "no_price" = Some (PyInt price)
        /\ payload !! "yes_price" = None)
    /\ (order_type = "market" ->
        payload !! "yes_price" = None /\ payload !! "no_price" = None).

(** Running [m] from [w] hands exactly one request to the transport, and
    that request satisfies [P]. *)
Definition sends_one {A} (P : Request -> Prop) (m : M A) (w : World) : Prop :=
  exists req, sent (m w).2 = req :: sent w /\ P req.

(** Running [m] from [w] hands no request to the transport, or exactly one
    that satisfies [P]. *)
Definition sends_at_most_one {A} (P : Request -> Prop) (m : M A) (w : World)
    : Prop :=
  sent (m w).2 = sent w \/ sends_one P m w.


(** What [_request] makes of the transport's answer: an exception of the
    transport is passed on, a 4xx or 5xx response becomes an [HTTPError], a
    body that does not parse a [JSONDecodeError], anything else the parsed
    body. *)
Definition outcome (answer : exn + Response) : exn + pyval :=
  match answer with
  | inl e => inl e
  | inr response =>
      if Z.leb 400 (status_code response) && Z.ltb (status_code response) 600
      then inl (HTTPError response)
      else match json_loads (text response) with
           | Some value => inr value
           | None => inl (JSONDecodeError (text response))
           end
  end.

(** Between [w] and [w'] the environment was left alone, the clock was read
    at most once and then exactly one message was signed, and at most one
    request was appended to the log. *)
Definition one_round (w w' : World) : Prop :=
  environ w' = environ w
  /\ ((ticks w' = ticks w /\ signed w' = signed w)
      \/ (exists message,
            ticks w' = S (ticks w) /\ signed w' = message :: signed w))
  /\ (sent w' = sent w \/ exists req, sent w' = req :: sent w).

(** The entry an [Optional[str]] argument contributes to a mapping. *)
Definition optional_str (value : option string) : option pyval :=
  if truthy_str value then PyStr <$> value else None.

(** The entry an [Optional[int]] argument contributes to a mapping. *)
Definition optional_int (value : option Z) : option pyval :=
  if truthy_int value then PyInt <$> value else None.

(** The query mapping of [req] is [entries] read as a finite map: a key
    paired with [None] is absent, and so is every key not listed. *)
Definition query_is (entries : list (string * option pyval)) (req : Request)
    : Prop :=
  exists params,
    req_params req = Some params
    /\ Forall (fun entry => params !! entry.1 = entry.2) entries
    /\ forall key, key ∉ entries.*1 -> params !! key = None.

(** What an endpoint makes of the result of [_request] when it unwraps the
    field [key] with default [dflt]. *)
Definition unwrapped (key : string) (dflt : pyval) (result : exn + pyval)
    : exn + pyval :=
  match result with
  | inl e => inl e
  | inr (PyDict envelope) => inr (default dflt (envelope !! key))
  | inr value => inl (AttributeError (no_get value))
  end.


(** The credential a constructor argument resolves to in world [w]. *)
Definition resolved (value : option string) (name : string) (w : World)
    : option string :=
  if truthy_str value then value else environ w !! name.

(** [m] prints or raises but leaves the world alone. *)
Definition keeps_world {A} (m : CLI A) : Prop :=
  forall t, world (m t).2 = world t.



(** *** The requests the endpoints build *)

(** The query mapping of [get_markets]. *)
Definition markets_query (limit : Z) (status : string)
    (cursor event_ticker : option string) : gmap string pyval :=
  set_if_str "event_ticker" event_ticker
    (set_if_str "cursor" cursor
       (<["limit" := PyInt limit]> (<["status" := PyStr status]> ∅))).

(** The query mapping of [get_orderbook]. *)
Definition orderbook_query (depth : option Z) : gmap string pyval :=
  set_if_int "depth" depth ∅.

(** The query mapping of [get_trades]. *)
Definition trades_query (limit : Z) (cursor : option string)
    : gmap string pyval :=
  set_if_str "cursor" cursor (<["limit" := PyInt limit]> ∅).

(** The query mapping of [get_events]. *)
Definition events_query (limit : Z) (status : string)
    (cursor : option string) : gmap string pyval :=
  set_if_str "cursor" cursor
    (<["limit" := PyInt limit]> (<["status" := PyStr status]> ∅)).

(** The query mapping of [get_positions]. *)
Definition positions_query (ticker : option string)
    (settlement_status : string) : gmap string pyval :=
  set_if_str "ticker" ticker
    (<["settlement_status" := PyStr settlement_status]> ∅).

(** The query mapping of [get_orders]. *)
Definition orders_query (ticker : option string) (status : string)
    : gmap string pyval :=
  set_if_str "ticker" ticker (<["status" := PyStr status]> ∅).

(** The JSON body of [create_order]. *)
Definition order_body (ticker side action : string) (count price : Z)
    (order_type : string) : gmap string pyval :=
  let payload :=
    <["ticker" := PyStr ticker]>
    (<["side" := PyStr side]>
    (<["action" := PyStr action]>
    (<["type" := PyStr order_type]>
    (<["count" := PyInt count]> ∅)))) in
  if String.eqb order_type "limit" then
    if String.eqb side "yes" then <["yes_price" := PyInt price]> payload
    else <["no_price" := PyInt price]> payload
  else payload.

(** The request of an unauthenticated GET. *)
Definition plain_get (base path : string)
    (params : option (gmap string pyval)) : Request :=
  mkRequest "GET" (base +:+ path) plain_headers params None.

(** The bytes an authenticated call hands to the signing primitive in
    world [w]. *)
Definition signed_message (w : World) (method path : string)
    : list Byte.byte :=
  encode (str (clock_ms (ticks w)) +:+ method +:+ path).

(** The request of an authenticated call made in world [w] once
    [signature] was obtained. *)
Definition signed_request (base : string) (w : World) (key_id : string)
    (signature : list Byte.byte) (method path : string)
    (params json_data : option (gmap string pyval)) : Request :=
  mkRequest method (base +:+ path)
    (signed_headers key_id (str (clock_ms (ticks w))) signature) params
    json_data.

End Shapes.

(** ** Shapes used in the statements about the command line *)

Section Listing.

Context {console : Console}.

(** The three lines [main] prints for one market. *)
Definition market_lines (market : gmap string pyval) : list string :=
  [ format_value (default PyNone (market !! "ticker")) +:+ ": " +:+
    format_value (default PyNone (market !! "title"));
    "  Yes: " +:+ format_value (default (PyStr "N/A") (market !! "yes_bid")) +:+
    cent +:+ " - " +:+
    format_value (default (PyStr "N/A") (market !! "yes_ask")) +:+ cent;
    EmptyString ].

(** A market [main] can list: a dictionary with a ticker and a title. *)
Definition listable (market : gmap string pyval) : Prop :=
  is_Some (market !! "ticker") /\ is_Some (market !! "title").

(** The lines printed for [markets], the first market first. *)
Definition listing (markets : list (gmap string pyval)) : list string :=
  concat (market_lines <$> markets).

(** [lines] were printed on top of [before], in that order. *)
Definition printed (lines before : list string) : list string :=
  rev lines ++ before.

(** The body of the loop [main] runs over the markets. *)
Definition market_body (market : pyval) : CLI unit :=
  let+ ticker := subscript market "ticker" in
  let+ title := subscript market "title" in
  print (format_value ticker +:+ ": " +:+ format_value title) ;;+
  let+ yes_bid := call (py_get market "yes_bid" (PyStr "N/A")) in
  let+ yes_ask := call (py_get market "yes_ask" (PyStr "N/A")) in
  print ("  Yes: " +:+ format_value yes_bid +:+ cent +:+ " - " +:+
         format_value yes_ask +:+ cent) ;;+
  print EmptyString.

End Listing.

(** ** A fixed set of collaborators for concrete runs

    A one-element key type, a signing primitive that returns the message
    bytes themselves, a clock stuck at [now], a transport that answers every
    request with [resp], and a parser that yields [parsed] for every body. *)
Module Doubles.

Definition fixed (now : Z) (resp : Response) (parsed : option pyval)
    : Collaborators :=
  {| PrivateKey := unit;
     load_pem_private_key := fun _ => inr tt;
     rsa_sign := fun _ message => inr message;
     b64encode := String.string_of_list_byte;
     clock_ms := fun _ => now;
     transport := fun _ _ => inr resp;
     json_loads := fun _ => parsed |}.

Definition ok_response : Response := mkResponse 200 "{}".

(** The body [{"error":"not_found"}]; the quote character is ASCII 34. *)
Definition not_found_body : string :=
  let q := String (Ascii.ascii_of_nat 34) EmptyString in
  "{" +:+ q +:+ "error" +:+ q +:+ ":" +:+ q +:+ "not_found" +:+ q +:+ "}".

Definition not_found : Response := mkResponse 404 not_found_body.

Definition multiple_choices : Response := mkResponse 300 "{}".

Definition quiet : World := mkWorld ∅ 0 [] [].

Definition with_env (name value : string) : World :=
  mkWorld (<[name := value]> ∅) 0 [] [].

Definition anonymous {ext : Collaborators} : KalshiClient :=
  mkClient None None DEFAULT_BASE_URL None.

(** The clock reads 1700000000000, every request is answered with 200 and
    a body that parses to the empty object. *)
Definition sample : Collaborators :=
  fixed 1700000000000 ok_response (Some (PyDict ∅)).

(** Every request is answered with 404 and [{"error":"not_found"}]. *)
Definition failing : Collaborators := fixed 1700000000000 not_found None.

(** Every request is answered with 300 and a body that parses to the empty
    object. *)
Definition undecided : Collaborators :=
  fixed 1700000000000 multiple_choices (Some (PyDict ∅)).

Definition trader : @KalshiClient sample :=
  mkClient (ext := sample) (Some "key-id") (Some "pem") DEFAULT_BASE_URL
    (Some (tt : @PrivateKey sample)).

(** Two decimal digits. *)
Definition two_digits (n : Z) : string :=
  (if Z.ltb n 10 then "0" else EmptyString) +:+ str n.

(** An amount of cents in dollars with two decimals, as [f"{z / 100:.2f}"]
    renders an integer small enough to be divided exactly. *)
Definition dollars_of_cents (z : Z) : string :=
  (if Z.ltb z 0 then "-" else EmptyString) +:+
  str (Z.abs z / 100) +:+ "." +:+ two_digits (Z.abs z mod 100).

(** A console for the values of the concrete runs below: strings are
    rendered as they are, integers in decimal, [None] and the booleans by
    their names (lists and dictionaries are not rendered: [...]); the empty
    mapping and the empty list are dumped as [{}] and [[]] (other values are
    not dumped: [...]); an integer amount below 2^53 cents is printed in
    dollars, a larger one overflows, and no other value can be divided. *)
Definition plain_console : Console :=
  {| format_value := fun value =>
       match value with
       | PyStr s => s
       | PyInt z => str z
       | PyNone => "None"
       | PyBool true => "True"
       | PyBool false => "False"
       | _ => "..."
       end;
     json_dumps := fun value =>
       match value with
       | PyList [] => "[]"
       | PyDict d => if decide (d = ∅) then "{}" else "..."
       | _ => "..."
       end;
     format_dollars := fun value =>
       match value with
       | PyInt z =>
           if Z.ltb (Z.abs z) (2 ^ 53) then inr (dollars_of_cents z)
           else inl OverflowError
       | _ => inl TypeError
       end;
     help_text := "usage: kalshi_client.py" |}.

Definition namespace (command : option string) : Namespace :=
  mkNamespace command 10 "open" "X".

Definition terminal (w : World) : Terminal := mkTerminal w [].

(** One market with a ticker, a title and a bid, and the envelope that
    lists it twice. *)
Definition a_market : gmap string pyval :=
  <["ticker" := PyStr "X"]>
  (<["title" := PyStr "Will X happen?"]>
  (<["yes_bid" := PyInt 41]> ∅)).

Definition two_markets : pyval :=
  PyDict (<["markets" := PyList [PyDict a_market; PyDict a_market]]> ∅).

(** Every request is answered with 200 and a body that parses to
    [two_markets]. *)
Definition listing_markets : Collaborators :=
  fixed 1700000000000 ok_response (Some two_markets).

(** A loader that rejects every PEM text. *)
Definition rejecting : Collaborators :=
  {| PrivateKey := unit;
     load_pem_private_key := fun _ => inl (ValueError "bad key");
     rsa_sign := fun _ message => inr message;
     b64encode := String.string_of_list_byte;
     clock_ms := fun _ => 0;
     transport := fun _ _ => inr ok_response;
     json_loads := fun _ => Some (PyDict ∅) |}.

(** A signing primitive that rejects every message. *)
Definition unsigning : Collaborators :=
  {| PrivateKey := unit;
     load_pem_private_key := fun _ => inr tt;
     rsa_sign := fun _ _ => inl (CryptoError "cannot sign");
     b64encode := String.string_of_list_byte;
     clock_ms := fun _ => 1700000000000;
     transport := fun _ _ => inr ok_response;
     json_loads := fun _ => Some (PyDict ∅) |}.

(** A transport that raises on every request. *)
Definition offline : Collaborators :=
  {| PrivateKey := unit;
     load_pem_private_key := fun _ => inr tt;
     rsa_sign := fun _ message => inr message;
     b64encode := String.string_of_list_byte;
     clock_ms := fun _ => 1700000000000;
     transport := fun _ _ => inl (ConnectionError "unreachable");
     json_loads := fun _ => Some (PyDict ∅) |}.

(** Every request is answered with 200 and a body that does not parse. *)
Definition garbled : Collaborators :=
  fixed 1700000000000 ok_response None.

(** Every request is answered with 200 and a body that parses to a list. *)
Definition listy : Collaborators :=
  fixed 1700000000000 ok_response (Some (PyList [])).

(** A client of [ext] with a key identifier and the private key [key]. *)
Definition keyed (ext : Collaborators) (key : @PrivateKey ext)
    : @KalshiClient ext :=
  mkClient (Some "key-id") (Some "pem") DEFAULT_BASE_URL (Some key).

(** A world whose environment holds both credentials. *)
Definition configured : World :=
  mkWorld
    (<["KALSHI_API_KEY" := "key-id"]> (<["KALSHI_PRIVATE_KEY" := "pem"]> ∅))
    0 [] [].

(** Every request is answered with 200 and a body that parses to an
    envelope with a balance of 1234. *)
Definition funded : Collaborators :=
  fixed 1700000000000 ok_response
    (Some (PyDict (<["balance" := PyInt 1234]> ∅))).

End Doubles.

(** * Properties *)

Section Facts.

Context {ext : Collaborators}.

Implicit Types (self : KalshiClient) (w : World).

(** ** Running the monad *)

Lemma bind_inl {A B} (m : M A) (k : A -> M B) w e w' :
  m w = (inl e, w') -> bind m k w = (inl e, w').
Proof. intros Hm. unfold bind. now rewrite Hm. Qed.

Lemma bind_inr {A B} (m : M A) (k : A -> M B) w a w' :
  m w = (inr a, w') -> bind m k w = k a w'.
Proof. intros Hm. unfold bind. now rewrite Hm. Qed.

Lemma py_get_world result key dflt w : (py_get result key dflt w).2 = w.
Proof. destruct result; reflexivity. Qed.

(** Unwrapping the envelope leaves the world as the request left it. *)
Lemma unwrap_world (m : M pyval) key dflt w :
  (bind m (fun result => py_get result key dflt) w).2 = (m w).2.
Proof.
  unfold bind. destruct (m w) as [[e | result] w']; simpl.
  - reflexivity.
  - apply py_get_world.
Qed.

(** An exception raised by the request passes through the unwrapping. *)
Lemma unwrap_inl (m : M pyval) key dflt w e w' :
  m w = (inl e, w') ->
  bind m (fun result => py_get result key dflt) w = (inl e, w').
Proof. apply bind_inl. Qed.

(** ** The signer *)

Lemma guard_refuses self method path w :
  truthy_str (api_key self) = false \/ _private_key self = None ->
  _get_auth_headers self method path w = (inl (ValueError auth_required), w).
Proof.
  unfold _get_auth_headers, truthy_str.
  intros [Hk | Hp].
  - destruct (api_key self) as [key_id |], (_private_key self); try reflexivity.
    apply negb_false_iff in Hk. now rewrite Hk.
  - rewrite Hp. now destruct (api_key self).
Qed.

Lemma headers_run self method path w key_id key :
  api_key self = Some key_id -> key_id <> EmptyString ->
  _private_key self = Some key ->
  let timestamp := str (clock_ms (ticks w)) in
  let message := encode (timestamp +:+ method +:+ path) in
  _get_auth_headers self method path w =
    (match rsa_sign key message with
     | inl e => inl e
     | inr signature => inr (signed_headers key_id timestamp signature)
     end,
     mkWorld (environ w) (S (ticks w)) (message :: signed w) (sent w)).
Proof.
  intros Hk Hne Hp. unfold _get_auth_headers. rewrite Hk, Hp.
  apply String.eqb_neq in Hne. rewrite Hne.
  unfold bind, time_ms, sign, ret. simpl.
  now destruct (rsa_sign key _).
Qed.

(** ** The generic dispatch *)

Lemma _request_unfold self method path params json_data authenticated w :
  _request self method path params json_data authenticated w =
    bind (if authenticated then _get_auth_headers self method path
          else ret (<["Content-Type" := "application/json"]> ∅))
      (fun headers =>
         dispatch (mkRequest method (base_url self +:+ path) headers params
                     json_data)) w.
Proof. reflexivity. Qed.

Lemma dispatch_world req w :
  (dispatch req w).2 =
    mkWorld (environ w) (ticks w) (signed w) (req :: sent w).
Proof.
  unfold dispatch, bind, requests_request, raise_for_status, response_json.
  destruct (transport (sent w) req) as [e | response]; simpl; [reflexivity |].
  destruct (Z.leb 400 (status_code response) && _); simpl; [reflexivity |].
  now destruct (json_loads (text response)).
Qed.

Lemma _request_signed self method path params json_data w key_id key :
  api_key self = Some key_id -> key_id <> EmptyString ->
  _private_key self = Some key ->
  signed (_request self method path params json_data true w).2 =
    encode (str (clock_ms (ticks w)) +:+ method +:+ path) :: signed w.
Proof.
  intros Hk Hne Hp. rewrite _request_unfold. unfold bind.
  rewrite (headers_run self method path w key_id key Hk Hne Hp).
  destruct (rsa_sign key _) as [e | signature]; [reflexivity |].
  now rewrite dispatch_world.
Qed.

(** C1: with credentials present, the bytes handed to the signing primitive
    are the encoding of [str(timestamp) + method + path], whatever the query
    mapping and the body of the request are; an unauthenticated request
    signs nothing; [get_positions] signs the bare path whatever its query
    arguments, [cancel_order] the path with the order id substituted; and
    at clock reading 1700000000000 [get_balance] signs
    ["1700000000000GET/portfolio/balance"]. *)
Theorem signed_message_is_timestamp_method_path
    self key_id key (method path : string) params json_data w :
  api_key self = Some key_id -> key_id <> EmptyString ->
  _private_key self = Some key ->
  let message := str (clock_ms (ticks w)) +:+ method +:+ path in
  signed (_get_auth_headers self method path w).2 = encode message :: signed w
  /\ signed (_request self method path params json_data true w).2 =
       encode message :: signed w
  /\ signed (_request self method path params json_data false w).2 = signed w
  /\ (forall ticker settlement_status,
        signed (get_positions self ticker settlement_status w).2 =
          encode (str (clock_ms (ticks w)) +:+ "GET" +:+
                  "/portfolio/positions") :: signed w)
  /\ (forall order_id,
        signed (cancel_order self order_id w).2 =
          encode (str (clock_ms (ticks w)) +:+ "DELETE" +:+
                  ("/portfolio/orders/" +:+ order_id)) :: signed w)
  /\ (clock_ms (ticks w) = 1700000000000 ->
      signed (get_balance self w).2 =
        encode "1700000000000GET/portfolio/balance" :: signed w).
Proof.
  intros Hk Hne Hp message. repeat apply conj.
  - now rewrite (headers_run self method path w key_id key Hk Hne Hp).
  - now apply _request_signed with key_id key.
  - rewrite _request_unfold. unfold bind, ret. now rewrite dispatch_world.
  - intros ticker settlement_status. unfold get_positions.
    rewrite unwrap_world. now apply _request_signed with key_id key.
  - intros order_id. unfold cancel_order.
    rewrite unwrap_world. now apply _request_signed with key_id key.
  - intros Hclock. unfold get_balance.
    rewrite (_request_signed self _ _ _ _ w key_id key Hk Hne Hp).
    now rewrite Hclock, str_ts.
Qed.

(** C3: when the key identifier is missing (or empty) or no private key is
    loaded, every authenticated endpoint raises the [ValueError] of the
    guard and leaves the world as it found it: nothing was signed, nothing
    was sent. *)
Theorem missing_credentials_fail_first self w :
  truthy_str (api_key self) = false \/ _private_key self = None ->
  get_balance self w = (inl (ValueError auth_required), w)
  /\ (forall ticker settlement_status,
        get_positions self ticker settlement_status w =
          (inl (ValueError auth_required), w))
  /\ (forall ticker status,
        get_orders self ticker status w =
          (inl (ValueError auth_required), w))
  /\ (forall ticker side action count price order_type,
        create_order self ticker side action count price order_type w =
          (inl (ValueError auth_required), w))
  /\ (forall order_id,
        cancel_order self order_id w = (inl (ValueError auth_required), w)).
Proof.
  intros Habsent.
  assert (Hreq : forall method path params json_data,
             _request self method path params json_data true w =
               (inl (ValueError auth_required), w)).
  { intros. rewrite _request_unfold. apply bind_inl.
    now apply guard_refuses. }
  repeat split; intros;
    first [ apply Hreq | apply unwrap_inl, Hreq ].
Qed.

(** C8: a successful [_get_auth_headers] returns exactly the four headers,
    with the key identifier, the base64 text of the signature, the clock
    reading as a decimal string and the JSON content type; the clock was
    read once, and the timestamp header is the one inside the signed
    message. *)
Theorem signed_header_set self method path w headers w' :
  _get_auth_headers self method path w = (inr headers, w') ->
  exists key_id key signature,
    let timestamp := str (clock_ms (ticks w)) in
    let message := encode (timestamp +:+ method +:+ path) in
    api_key self = Some key_id
    /\ _private_key self = Some key
    /\ rsa_sign key message = inr signature
    /\ headers = signed_headers key_id timestamp signature
    /\ dom headers =
         ({[ "KALSHI-ACCESS-KEY"; "KALSHI-ACCESS-SIGNATURE";
             "KALSHI-ACCESS-TIMESTAMP"; "Content-Type" ]} : gset string)
    /\ headers !! "KALSHI-ACCESS-KEY" = Some key_id
    /\ headers !! "KALSHI-ACCESS-SIGNATURE" = Some (b64encode signature)
    /\ headers !! "KALSHI-ACCESS-TIMESTAMP" = Some timestamp
    /\ headers !! "Content-Type" = Some "application/json"
    /\ ticks w' = S (ticks w)
    /\ signed w' = message :: signed w
    /\ sent w' = sent w.
Proof.
  unfold _get_auth_headers.
  destruct (api_key self) as [key_id |] eqn:Hk;
    destruct (_private_key self) as [key |] eqn:Hp;
    try (intros H; discriminate H).
  destruct (String.eqb key_id EmptyString); [intros H; discriminate H |].
  unfold bind, time_ms, sign, ret. simpl.
  destruct (rsa_sign key _) as [e | signature] eqn:Hsig;
    [intros H; discriminate H |].
  intros H. injection H as <- <-.
  exists key_id, key, signature. simpl.
  repeat split; try assumption; reflexivity.
Qed.

(** ** What reaches the transport *)

Lemma headers_sent self method path w :
  sent (_get_auth_headers self method path w).2 = sent w.
Proof.
  unfold _get_auth_headers.
  destruct (api_key self) as [key_id |], (_private_key self) as [key |];
    try reflexivity.
  destruct (String.eqb key_id EmptyString); [reflexivity |].
  unfold bind, time_ms, sign, ret. simpl.
  now destruct (rsa_sign key _).
Qed.

Lemma _request_public_world self method path params json_data w :
  (_request self method path params json_data false w).2 =
    after_sending
      (mkRequest method (base_url self +:+ path) plain_headers params
         json_data) w.
Proof.
  rewrite _request_unfold. unfold bind, ret. now rewrite dispatch_world.
Qed.

Lemma _request_sends self method path params json_data authenticated
    (P : Request -> Prop) w :
  (forall headers,
     P (mkRequest method (base_url self +:+ path) headers params json_data)) ->
  sends_at_most_one P
    (_request self method path params json_data authenticated) w.
Proof.
  intros HP. unfold sends_at_most_one, sends_one.
  rewrite _request_unfold. unfold bind.
  destruct authenticated.
  - pose proof (headers_sent self method path w) as Hsent.
    destruct (_get_auth_headers self method path w) as [[e | headers] w1];
      simpl in Hsent.
    + now left.
    + right. eexists. rewrite dispatch_world. simpl. rewrite Hsent.
      split; [reflexivity | apply HP].
  - right. eexists. unfold ret. rewrite dispatch_world. simpl.
    split; [reflexivity | apply HP].
Qed.

Lemma _request_public_sends self method path params json_data
    (P : Request -> Prop) w :
  P (mkRequest method (base_url self +:+ path) plain_headers params
       json_data) ->
  sends_one P (_request self method path params json_data false) w.
Proof.
  intros HP. unfold sends_one. rewrite _request_public_world.
  eexists. split; [reflexivity | exact HP].
Qed.

Lemma unwrap_sends_one (P : Request -> Prop) (m : M pyval) key dflt w :
  sends_one P m w ->
  sends_one P (bind m (fun result => py_get result key dflt)) w.
Proof. unfold sends_one. now rewrite unwrap_world. Qed.

Lemma unwrap_sends_at_most_one (P : Request -> Prop) (m : M pyval) key dflt w :
  sends_at_most_one P m w ->
  sends_at_most_one P (bind m (fun result => py_get result key dflt)) w.
Proof. unfold sends_at_most_one, sends_one. now rewrite unwrap_world. Qed.

(** ** Conditional entries of the query mapping *)

Lemma set_if_str_other key value params key' :
  key <> key' -> set_if_str key value params !! key' = params !! key'.
Proof.
  intros Hne. unfold set_if_str. destruct value as [s |]; [| reflexivity].
  destruct (String.eqb s EmptyString); [reflexivity |].
  now apply lookup_insert_ne.
Qed.

Lemma set_if_str_same key value params :
  set_if_str key value params !! key =
    if truthy_str value then PyStr <$> value else params !! key.
Proof.
  unfold set_if_str, truthy_str. destruct value as [s |]; [| reflexivity].
  destruct (String.eqb s EmptyString); simpl; [reflexivity |].
  apply lookup_insert_eq.
Qed.

Lemma set_if_int_same key value params :
  set_if_int key value params !! key =
    if truthy_int value then PyInt <$> value else params !! key.
Proof.
  unfold set_if_int, truthy_int. destruct value as [z |]; [| reflexivity].
  destruct (Z.eqb z 0); simpl; [reflexivity |].
  apply lookup_insert_eq.
Qed.





(** ** Requests that get through *)

Lemma _request_signed_sends self method path params json_data
    (P : Request -> Prop) w key_id key signature :
  api_key self = Some key_id -> key_id <> EmptyString ->
  _private_key self = Some key ->
  let timestamp := str (clock_ms (ticks w)) in
  rsa_sign key (encode (timestamp +:+ method +:+ path)) = inr signature ->
  P (mkRequest method (base_url self +:+ path)
       (signed_headers key_id timestamp signature) params json_data) ->
  sends_one P (_request self method path params json_data true) w.
Proof.
  intros Hk Hne Hp timestamp Hsig HP. unfold sends_one.
  rewrite _request_unfold. unfold bind.
  rewrite (headers_run self method path w key_id key Hk Hne Hp).
  fold timestamp. rewrite Hsig, dispatch_world. simpl.
  eexists. split; [reflexivity | exact HP].
Qed.

Lemma order_payload_keys ticker side action count price order_type headers
    url :
  price_under_side_key side price order_type
    (mkRequest "POST" url headers None
       (Some
          (if String.eqb order_type "limit" then
             if String.eqb side "yes" then
               <["yes_price" := PyInt price]>
                 (<["ticker" := PyStr ticker]>
                 (<["side" := PyStr side]>
                 (<["action" := PyStr action]>
                 (<["type" := PyStr order_type]>
                 (<["count" := PyInt count]> ∅)))))
             else
               <["no_price" := PyInt price]>
                 (<["ticker" := PyStr ticker]>
                 (<["side" := PyStr side]>
                 (<["action" := PyStr action]>
                 (<["type" := PyStr order_type]>
                 (<["count" := PyInt count]> ∅)))))
           else
             <["ticker" := PyStr ticker]>
               (<["side" := PyStr side]>
               (<["action" := PyStr action]>
               (<["type" := PyStr order_type]>
               (<["count" := PyInt count]> ∅))))))).
Proof.
  unfold price_under_side_key. eexists. split; [reflexivity |].
  repeat split; intros; subst; simpl;
    try (rewrite (proj2 (String.eqb_neq side "yes")) by assumption);
    reflexivity.
Qed.

(** C2: the body [create_order] hands to the transport has [yes_price]
    (and no [no_price]) for a limit order on side "yes", [no_price] (and no
    [yes_price]) for a limit order on any other side, and neither key for a
    market order; with credentials present and a signature obtained, that
    request is sent. *)
Theorem create_order_price_key
    self ticker side action count price order_type w :
  sends_at_most_one (price_under_side_key side price order_type)
    (create_order self ticker side action count price order_type) w
  /\ (forall key_id key signature,
        api_key self = Some key_id -> key_id <> EmptyString ->
        _private_key self = Some key ->
        rsa_sign key
          (encode (str (clock_ms (ticks w)) +:+ "POST" +:+
                   "/portfolio/orders")) = inr signature ->
        sends_one (price_under_side_key side price order_type)
          (create_order self ticker side action count price order_type) w).
Proof.
  split.
  - apply unwrap_sends_at_most_one, _request_sends. intros headers.
    apply order_payload_keys.
  - intros key_id key signature Hk Hne Hp Hsig.
    apply unwrap_sends_one.
    apply (_request_signed_sends self _ _ _ _ _ w key_id key signature
             Hk Hne Hp Hsig).
    apply order_payload_keys.
Qed.

(** ** Responses *)

Lemma dispatch_http_error req w response :
  transport (sent w) req = inr response ->
  400 <= status_code response < 600 ->
  dispatch req w = (inl (HTTPError response), after_sending req w).
Proof.
  intros Ht [Hlo Hhi].
  unfold dispatch, bind, requests_request, raise_for_status.
  rewrite Ht.
  apply Z.leb_le in Hlo. apply Z.ltb_lt in Hhi. now rewrite Hlo, Hhi.
Qed.

Lemma dispatch_value req w response value :
  transport (sent w) req = inr response ->
  ~ (400 <= status_code response < 600) ->
  json_loads (text response) = Some value ->
  dispatch req w = (inr value, after_sending req w).
Proof.
  intros Ht Hstatus Hjson.
  unfold dispatch, bind, requests_request, raise_for_status, response_json.
  rewrite Ht.
  destruct (Z.leb 400 (status_code response)) eqn:Hlo;
    destruct (Z.ltb (status_code response) 600) eqn:Hhi; simpl;
    try now rewrite Hjson.
  apply Z.leb_le in Hlo. apply Z.ltb_lt in Hhi. now destruct Hstatus.
Qed.

Lemma _request_public_value self method path params json_data w response
    value :
  (forall log req, transport log req = inr response) ->
  ~ (400 <= status_code response < 600) ->
  json_loads (text response) = Some value ->
  (_request self method path params json_data false w).1 = inr value.
Proof.
  intros Ht Hstatus Hjson. rewrite _request_unfold. unfold bind, ret.
  now rewrite (dispatch_value _ w response value (Ht _ _) Hstatus Hjson).
Qed.

Lemma _request_signed_value self method path params json_data w response
    value key_id key :
  (forall log req, transport log req = inr response) ->
  ~ (400 <= status_code response < 600) ->
  json_loads (text response) = Some value ->
  api_key self = Some key_id -> key_id <> EmptyString ->
  _private_key self = Some key ->
  (forall message, exists signature, rsa_sign key message = inr signature) ->
  (_request self method path params json_data true w).1 = inr value.
Proof.
  intros Ht Hstatus Hjson Hk Hne Hp Hsign.
  rewrite _request_unfold. unfold bind.
  rewrite (headers_run self method path w key_id key Hk Hne Hp).
  destruct (Hsign (encode (str (clock_ms (ticks w)) +:+ method +:+ path)))
    as [signature ->].
  now rewrite (dispatch_value _ _ response value (Ht _ _) Hstatus Hjson).
Qed.

Lemma unwrap_missing (m : M pyval) key dflt w envelope :
  (m w).1 = inr (PyDict envelope) ->
  envelope !! key = None ->
  (bind m (fun result => py_get result key dflt) w).1 = inr dflt.
Proof.
  unfold bind. destruct (m w) as [[e | result] w']; simpl;
    intros [= ->] Hmiss.
  unfold ret. simpl. now rewrite Hmiss.
Qed.

(** C4, as the code has it: a response with a 4xx or 5xx status makes the
    dispatch raise the [HTTPError] that carries the response (status code
    and body) after exactly one transport call, and no value is returned;
    [get_market] passes the exception on. *)
Theorem http_error_status_raises self w :
  (forall method path params json_data (authenticated : bool) headers w1
          response,
     (if authenticated then _get_auth_headers self method path
      else ret plain_headers) w = (inr headers, w1) ->
     let req :=
       mkRequest method (base_url self +:+ path) headers params json_data in
     transport (sent w1) req = inr response ->
     400 <= status_code response < 600 ->
     _request self method path params json_data authenticated w =
       (inl (HTTPError response), after_sending req w1))
  /\ (forall ticker response,
       let req :=
         mkRequest "GET" (base_url self +:+ "/markets/" +:+ ticker)
           plain_headers None None in
       transport (sent w) req = inr response ->
       400 <= status_code response < 600 ->
       get_market self ticker w =
         (inl (HTTPError response), after_sending req w)).
Proof.
  assert (Hreq : forall method path params json_data (authenticated : bool)
                        headers w1 response,
             (if authenticated then _get_auth_headers self method path
              else ret plain_headers) w = (inr headers, w1) ->
             transport (sent w1)
               (mkRequest method (base_url self +:+ path) headers params
                  json_data) = inr response ->
             400 <= status_code response < 600 ->
             _request self method path params json_data authenticated w =
               (inl (HTTPError response),
                after_sending
                  (mkRequest method (base_url self +:+ path) headers params
                     json_data) w1)).
  { intros method path params json_data authenticated headers w1 response
      Hheaders Ht Hstatus.
    rewrite _request_unfold.
    rewrite (bind_inr _ _ w headers w1) by exact Hheaders.
    now apply dispatch_http_error. }
  split.
  - intros. now apply Hreq.
  - intros ticker response req Ht Hstatus.
    unfold get_market. apply unwrap_inl.
    now apply (Hreq "GET" _ None None false plain_headers w response).
Qed.

(** ** Construction *)

Lemma or_environ_run value name w :
  or_environ value name w =
    (inr (if truthy_str value then value else environ w !! name), w).
Proof. unfold or_environ. now destruct (truthy_str value). Qed.


(** A client that was constructed has its fields resolved as follows, and
    construction leaves the world alone. *)
Lemma __init___fields api_key0 private_key_pem0 base_url0 demo w self w' :
  __init__ api_key0 private_key_pem0 base_url0 demo w = (inr self, w') ->
  api_key self =
    (if truthy_str api_key0 then api_key0
     else environ w !! "KALSHI_API_KEY")
  /\ private_key_pem self =
       (if truthy_str private_key_pem0 then private_key_pem0
        else environ w !! "KALSHI_PRIVATE_KEY")
  /\ base_url self =
       (if demo then DEMO_BASE_URL
        else or_default base_url0 DEFAULT_BASE_URL)
  /\ w' = w.
Proof.
  unfold __init__, bind. rewrite !or_environ_run.
  set (pem := if truthy_str private_key_pem0 then _ else _).
  destruct pem as [text |].
  - destruct (String.eqb text EmptyString).
    + unfold ret. intros [= <- <-]. now repeat split.
    + unfold lift. destruct (load_pem_private_key (encode text)) as [e | key];
        unfold raise, ret; [intros H; discriminate H |].
      intros [= <- <-]. now repeat split.
  - unfold ret. intros [= <- <-]. now repeat split.
Qed.


(** ** Nothing but construction reads the environment *)










(** C9, as the code has it: with [demo] set the demo URL is selected
    whatever override is supplied; without it a non-empty override is used
    as given and the production URL stands in for an absent or empty one;
    so the production URL is the base URL only when [demo] is false and the
    override is absent, empty, or the production URL itself. *)
Theorem demo_flag_overrides_base_url
    api_key0 private_key_pem0 base_url0 demo w self w' :
  __init__ api_key0 private_key_pem0 base_url0 demo w = (inr self, w') ->
  (demo = true -> base_url self = DEMO_BASE_URL)
  /\ (demo = false ->
      forall url,
        base_url0 = Some url -> url <> EmptyString -> base_url self = url)
  /\ (demo = false ->
      base_url0 = None \/ base_url0 = Some EmptyString ->
      base_url self = DEFAULT_BASE_URL)
  /\ (base_url self = DEFAULT_BASE_URL ->
      demo = false
      /\ (base_url0 = None \/ base_url0 = Some EmptyString
          \/ base_url0 = Some DEFAULT_BASE_URL)).
Proof.
  intros Hinit.
  destruct (__init___fields _ _ _ _ _ _ _ Hinit) as (_ & _ & Hb & _).
  rewrite Hb. repeat apply conj.
  - now intros ->.
  - intros -> url -> Hne. simpl. apply String.eqb_neq in Hne.
    now rewrite Hne.
  - intros -> [-> | ->]; reflexivity.
  - destruct demo; [intros H; discriminate H |].
    intros Hurl. split; [reflexivity |].
    destruct base_url0 as [url |]; [| now left].
    simpl in Hurl. destruct (String.eqb url EmptyString) eqn:Hempty.
    + apply String.eqb_eq in Hempty. subst url. right. now left.
    + subst url. right. now right.
Qed.

End Facts.

(** * Concrete runs *)

(** At clock reading 1700000000000 [get_balance] signs
    ["1700000000000GET/portfolio/balance"] and nothing else. *)
Lemma signed_message_witness :
  signed (get_balance (ext := Doubles.sample) Doubles.trader Doubles.quiet).2 =
    [encode "1700000000000GET/portfolio/balance"].
Proof.
  pose proof (signed_message_is_timestamp_method_path (ext := Doubles.sample)
                Doubles.trader "key-id" tt "GET" "/portfolio/balance" None
                None Doubles.quiet eq_refl ltac:(discriminate) eq_refl)
    as (_ & _ & _ & _ & _ & Hbalance).
  exact (Hbalance eq_refl).
Defined.

(** A client without credentials: [get_balance] and [cancel_order] raise
    and the world stays quiet. *)
Lemma missing_credentials_witness :
  get_balance (ext := Doubles.sample) Doubles.anonymous Doubles.quiet =
    (inl (ValueError auth_required), Doubles.quiet)
  /\ cancel_order (ext := Doubles.sample) Doubles.anonymous "order-1"
       Doubles.quiet =
       (inl (ValueError auth_required), Doubles.quiet).
Proof.
  pose proof (missing_credentials_fail_first (ext := Doubles.sample)
                Doubles.anonymous Doubles.quiet (or_introl eq_refl))
    as (Hbalance & _ & _ & _ & Hcancel).
  split; [exact Hbalance | exact (Hcancel "order-1")].
Defined.

(** The headers of a signed [GET /portfolio/balance] at clock reading
    1700000000000. *)
Lemma signed_header_set_witness :
  exists headers w',
    _get_auth_headers (ext := Doubles.sample) Doubles.trader "GET"
      "/portfolio/balance" Doubles.quiet = (inr headers, w')
    /\ headers !! "KALSHI-ACCESS-KEY" = Some "key-id"
    /\ headers !! "KALSHI-ACCESS-TIMESTAMP" = Some "1700000000000"
    /\ headers !! "Content-Type" = Some "application/json"
    /\ ticks w' = 1%nat
    /\ signed w' = [encode "1700000000000GET/portfolio/balance"].
Proof.
  pose (message := encode "1700000000000GET/portfolio/balance").
  assert (Hrun : _get_auth_headers (ext := Doubles.sample) Doubles.trader
                   "GET" "/portfolio/balance" Doubles.quiet =
                   (inr (signed_headers (ext := Doubles.sample) "key-id"
                           "1700000000000" message),
                    after_signing message Doubles.quiet)).
  { vm_compute. reflexivity. }
  eexists _, _. split; [exact Hrun |].
  destruct (signed_header_set (ext := Doubles.sample) Doubles.trader "GET"
              "/portfolio/balance" Doubles.quiet _ _ Hrun)
    as (key_id & key & signature & Hk & _ & _ & _ & _ & Hid & _ & Hts & Hct
        & Hticks & Hsigned & _).
  injection Hk as <-.
  exact (conj Hid (conj Hts (conj Hct (conj Hticks Hsigned)))).
Defined.

(** A limit order on side "yes" at price 42: the body that reaches the
    transport has [yes_price] 42 and no [no_price]. *)
Lemma create_order_price_key_witness :
  exists req payload,
    sent (create_order (ext := Doubles.sample) Doubles.trader "X" "yes" "buy"
            5 42 "limit" Doubles.quiet).2 = [req]
    /\ req_json req = Some payload
    /\ payload !! "yes_price" = Some (PyInt 42)
    /\ payload !! "no_price" = None.
Proof.
  destruct (create_order_price_key (ext := Doubles.sample) Doubles.trader
              "X" "yes" "buy" 5 42 "limit" Doubles.quiet) as [_ Hsent].
  destruct (Hsent "key-id" tt _ eq_refl ltac:(discriminate) eq_refl eq_refl)
    as (req & Hlog & payload & Hbody & Hyes & _ & _).
  destruct (Hyes eq_refl eq_refl) as [Hprice Hnone].
  exists req, payload.
  exact (conj Hlog (conj Hbody (conj Hprice Hnone))).
Defined.

(** HTTP 404 with body [{"error":"not_found"}]: [get_market("BOGUS")]
    raises the error that carries that response, after one transport
    call. *)
Lemma http_error_status_witness :
  get_market (ext := Doubles.failing) Doubles.anonymous "BOGUS"
    Doubles.quiet =
    (inl (HTTPError (mkResponse 404 Doubles.not_found_body)),
     after_sending
       (mkRequest "GET" (DEFAULT_BASE_URL +:+ "/markets/BOGUS")
          plain_headers None None) Doubles.quiet).
Proof.
  destruct (http_error_status_raises (ext := Doubles.failing)
              Doubles.anonymous Doubles.quiet) as [_ Hmarket].
  pose proof (Hmarket "BOGUS" Doubles.not_found) as Hbogus.
  cbv zeta in Hbogus. apply Hbogus; [reflexivity | simpl; lia].
Defined.

(** C4 as stated fails: a response with status 300, which is not a 2xx
    status, whose body parses, makes [get_market("BOGUS")] return a
    value. *)
Lemma non_2xx_status_can_return_a_value :
  ~ (200 <= status_code Doubles.multiple_choices < 300)
  /\ get_market (ext := Doubles.undecided) Doubles.anonymous "BOGUS"
       Doubles.quiet =
       (inr (PyDict ∅),
        after_sending
          (mkRequest "GET" (DEFAULT_BASE_URL +:+ "/markets/BOGUS")
             plain_headers None None) Doubles.quiet).
Proof.
  split; [simpl; lia | reflexivity].
Qed.



(** With [demo] set, an explicit override is not used. *)
Lemma demo_flag_witness :
  exists self,
    __init__ (ext := Doubles.sample) None None
      (Some "https://example.test/v2") true Doubles.quiet =
      (inr self, Doubles.quiet)
    /\ base_url self = DEMO_BASE_URL.
Proof.
  pose (self := mkClient (ext := Doubles.sample) None None DEMO_BASE_URL
                  None).
  assert (Hrun : __init__ (ext := Doubles.sample) None None
                   (Some "https://example.test/v2") true Doubles.quiet =
                   (inr self, Doubles.quiet)).
  { reflexivity. }
  destruct (demo_flag_overrides_base_url (ext := Doubles.sample)
              _ _ _ _ _ _ _ Hrun) as (Hdemo & _).
  exists self. exact (conj Hrun (Hdemo eq_refl)).
Defined.

(** C9 as stated fails: with [demo] false and the empty string given as
    override, the production URL is the base URL. *)
Lemma empty_override_selects_production :
  exists self,
    __init__ (ext := Doubles.sample) None None (Some EmptyString) false
      Doubles.quiet = (inr self, Doubles.quiet)
    /\ base_url self = DEFAULT_BASE_URL
    /\ Some EmptyString <> (None : option string).
Proof.
  exists (mkClient (ext := Doubles.sample) None None DEFAULT_BASE_URL None).
  split; [reflexivity |]. split; [reflexivity | discriminate].
Qed.

(** [get_markets(limit=10, status="open")] in full. *)
Example get_markets_open_ten :
  sent (get_markets (ext := Doubles.sample) Doubles.anonymous 10 "open" None
          None Doubles.quiet).2 =
    [mkRequest "GET" (DEFAULT_BASE_URL +:+ "/markets") plain_headers
       (Some (<["limit" := PyInt 10]> (<["status" := PyStr "open"]> ∅)))
       None].
Proof. reflexivity. Qed.

(** A market order carries no price at all. *)
Example market_order_has_no_price :
  exists req payload,
    sent (create_order (ext := Doubles.sample) Doubles.trader "X" "no" "sell"
            5 42 "market" Doubles.quiet).2 = [req]
    /\ req_json req = Some payload
    /\ payload !! "yes_price" = None /\ payload !! "no_price" = None
    /\ payload !! "type" = Some (PyStr "market").
Proof.
  eexists _, _. split; [vm_compute; reflexivity |].
  split; [reflexivity |]. repeat split.
Qed.

(** * Further properties of the request pipeline *)

Section Pipeline.

Context {ext : Collaborators}.

Implicit Types (self : KalshiClient) (w : World).

(** ** Complete runs *)

Lemma dispatch_run req w :
  dispatch req w = (outcome (transport (sent w) req), after_sending req w).
Proof.
  unfold dispatch, bind, requests_request, raise_for_status, response_json,
    outcome.
  destruct (transport (sent w) req) as [e | response]; [reflexivity |].
  destruct (Z.leb 400 (status_code response) && _); [reflexivity |].
  now destruct (json_loads (text response)).
Qed.

Lemma _request_public_run self method path params json_data w :
  let req :=
    mkRequest method (base_url self +:+ path) plain_headers params
      json_data in
  _request self method path params json_data false w =
    (outcome (transport (sent w) req), after_sending req w).
Proof.
  intros req. rewrite _request_unfold. unfold bind, ret.
  apply dispatch_run.
Qed.

Lemma _request_signed_run self method path params json_data w key_id key :
  api_key self = Some key_id -> key_id <> EmptyString ->
  _private_key self = Some key ->
  let timestamp := str (clock_ms (ticks w)) in
  let message := encode (timestamp +:+ method +:+ path) in
  _request self method path params json_data true w =
    match rsa_sign key message with
    | inl e => (inl e, after_signing message w)
    | inr signature =>
        let req :=
          mkRequest method (base_url self +:+ path)
            (signed_headers key_id timestamp signature) params json_data in
        (outcome (transport (sent w) req),
         after_sending req (after_signing message w))
    end.
Proof.
  intros Hk Hne Hp timestamp message. rewrite _request_unfold. unfold bind.
  rewrite (headers_run self method path w key_id key Hk Hne Hp).
  fold timestamp message.
  destruct (rsa_sign key message) as [e | signature]; [reflexivity |].
  now rewrite dispatch_run.
Qed.

Lemma unwrap_run (m : M pyval) key dflt w :
  bind m (fun result => py_get result key dflt) w =
    (unwrapped key dflt (m w).1, (m w).2).
Proof.
  unfold bind, unwrapped. destruct (m w) as [[e | result] w']; simpl;
    [reflexivity |].
  now destruct result.
Qed.

(** X1: the six public endpoints, on any client and whether or not it has
    credentials, change the world by exactly one logged request: a GET to
    the base URL followed by the endpoint's path, with the plain
    content-type header and no JSON body; the clock is not read and nothing
    is signed. *)
Theorem public_endpoints_never_sign self w :
  (forall limit status cursor event_ticker,
     exists params,
       (get_markets self limit status cursor event_ticker w).2 =
         after_sending
           (mkRequest "GET" (base_url self +:+ "/markets") plain_headers
              (Some params) None) w)
  /\ (forall ticker,
       (get_market self ticker w).2 =
         after_sending
           (mkRequest "GET" (base_url self +:+ ("/markets/" +:+ ticker))
              plain_headers None None) w)
  /\ (forall ticker depth,
       exists params,
         (get_orderbook self ticker depth w).2 =
           after_sending
             (mkRequest "GET"
                (base_url self +:+ ("/markets/" +:+ ticker +:+ "/orderbook"))
                plain_headers (Some params) None) w)
  /\ (forall ticker limit cursor,
       exists params,
         (get_trades self ticker limit cursor w).2 =
           after_sending
             (mkRequest "GET"
                (base_url self +:+ ("/markets/" +:+ ticker +:+ "/trades"))
                plain_headers (Some params) None) w)
  /\ (forall limit status cursor,
       exists params,
         (get_events self limit status cursor w).2 =
           after_sending
             (mkRequest "GET" (base_url self +:+ "/events") plain_headers
                (Some params) None) w)
  /\ (forall event_ticker,
       (get_event self event_ticker w).2 =
         after_sending
           (mkRequest "GET" (base_url self +:+ ("/events/" +:+ event_ticker))
              plain_headers None None) w).
Proof.
  repeat apply conj; intros;
    try (eexists; unfold get_markets, get_orderbook, get_trades, get_events);
    try unfold get_market, get_event;
    rewrite unwrap_world; apply _request_public_world.
Qed.

(** ** The value of [outcome] *)

Lemma outcome_value response value :
  ~ (400 <= status_code response < 600) ->
  json_loads (text response) = Some value ->
  outcome (inr response) = inr value.
Proof.
  intros Hstatus Hjson. unfold outcome.
  destruct (Z.leb 400 (status_code response)) eqn:Hlo;
    destruct (Z.ltb (status_code response) 600) eqn:Hhi; simpl;
    try now rewrite Hjson.
  apply Z.leb_le in Hlo. apply Z.ltb_lt in Hhi. now destruct Hstatus.
Qed.

Lemma outcome_unparseable response :
  ~ (400 <= status_code response < 600) ->
  json_loads (text response) = None ->
  outcome (inr response) = inl (JSONDecodeError (text response)).
Proof.
  intros Hstatus Hjson. unfold outcome.
  destruct (Z.leb 400 (status_code response)) eqn:Hlo;
    destruct (Z.ltb (status_code response) 600) eqn:Hhi; simpl;
    try now rewrite Hjson.
  apply Z.leb_le in Hlo. apply Z.ltb_lt in Hhi. now destruct Hstatus.
Qed.

(** ** The authenticated round *)

(** X6: when the signing primitive raises, an authenticated endpoint raises
    the same exception; the clock was read once and the message was handed
    to the primitive, but no request reaches the transport. *)
Theorem signing_failure_sends_nothing self w key_id key e :
  api_key self = Some key_id -> key_id <> EmptyString ->
  _private_key self = Some key ->
  (forall message, rsa_sign key message = inl e) ->
  let signing method path :=
    after_signing (encode (str (clock_ms (ticks w)) +:+ method +:+ path)) w in
  (forall method path params json_data,
     _request self method path params json_data true w =
       (inl e, signing method path))
  /\ get_balance self w = (inl e, signing "GET" "/portfolio/balance")
  /\ (forall ticker settlement_status,
       get_positions self ticker settlement_status w =
         (inl e, signing "GET" "/portfolio/positions"))
  /\ (forall ticker status,
       get_orders self ticker status w =
         (inl e, signing "GET" "/portfolio/orders"))
  /\ (forall ticker side action count price order_type,
       create_order self ticker side action count price order_type w =
         (inl e, signing "POST" "/portfolio/orders"))
  /\ (forall order_id,
       cancel_order self order_id w =
         (inl e, signing "DELETE" ("/portfolio/orders/" +:+ order_id)))
  /\ (forall method path, sent (signing method path) = sent w).
Proof.
  intros Hk Hne Hp Hsign signing.
  assert (Hreq : forall method path params json_data,
             _request self method path params json_data true w =
               (inl e, signing method path)).
  { intros. rewrite (_request_signed_run self method path params json_data w
                       key_id key Hk Hne Hp).
    now rewrite Hsign. }
  repeat apply conj; intros;
    first [ reflexivity | apply Hreq | apply unwrap_inl, Hreq ].
Qed.

(** X7: with credentials present and a signature obtained, an authenticated
    endpoint performs one round in this order: one reading of the clock,
    one signature over timestamp, method and path, one request.  The
    request that is sent has the very method and path that were signed,
    and carries the signed headers with that timestamp and signature. *)
Theorem authenticated_round self w key_id key
    (signature : list Byte.byte -> list Byte.byte) :
  api_key self = Some key_id -> key_id <> EmptyString ->
  _private_key self = Some key ->
  (forall message, rsa_sign key message = inr (signature message)) ->
  let timestamp := str (clock_ms (ticks w)) in
  let round method path params json_data :=
    let message := encode (timestamp +:+ method +:+ path) in
    after_sending
      (mkRequest method (base_url self +:+ path)
         (signed_headers key_id timestamp (signature message)) params
         json_data)
      (after_signing message w) in
  (forall method path params json_data,
     (_request self method path params json_data true w).2 =
       round method path params json_data)
  /\ (get_balance self w).2 = round "GET" "/portfolio/balance" None None
  /\ (forall ticker settlement_status,
       exists params,
         (get_positions self ticker settlement_status w).2 =
           round "GET" "/portfolio/positions" (Some params) None)
  /\ (forall ticker status,
       exists params,
         (get_orders self ticker status w).2 =
           round "GET" "/portfolio/orders" (Some params) None)
  /\ (forall ticker side action count price order_type,
       exists payload,
         (create_order self ticker side action count price order_type w).2 =
           round "POST" "/portfolio/orders" None (Some payload))
  /\ (forall order_id,
       (cancel_order self order_id w).2 =
         round "DELETE" ("/portfolio/orders/" +:+ order_id) None None).
Proof.
  intros Hk Hne Hp Hsign timestamp round.
  assert (Hreq : forall method path params json_data,
             (_request self method path params json_data true w).2 =
               round method path params json_data).
  { intros. rewrite (_request_signed_run self method path params json_data w
                       key_id key Hk Hne Hp).
    now rewrite Hsign. }
  repeat apply conj; intros;
    try (eexists; unfold get_positions, get_orders, create_order);
    try unfold cancel_order;
    rewrite ?unwrap_world; apply Hreq.
Qed.

(** ** One call, one round *)

Lemma one_round_refl w : one_round w w.
Proof. unfold one_round. split; [reflexivity |]. split; left; auto. Qed.

Lemma one_round_sending req w : one_round w (after_sending req w).
Proof.
  unfold one_round. split; [reflexivity |]. split; [left; auto |].
  right. now exists req.
Qed.

Lemma one_round_signing message w : one_round w (after_signing message w).
Proof.
  unfold one_round. split; [reflexivity |]. split; [| now left].
  right. now exists message.
Qed.

Lemma one_round_both message req w :
  one_round w (after_sending req (after_signing message w)).
Proof.
  unfold one_round. split; [reflexivity |]. split.
  - right. now exists message.
  - right. now exists req.
Qed.

Lemma _request_one_round self method path params json_data authenticated w :
  one_round w (_request self method path params json_data authenticated w).2.
Proof.
  destruct authenticated.
  - destruct (api_key self) as [key_id |] eqn:Hk.
    + destruct (_private_key self) as [key |] eqn:Hp.
      * destruct (String.eqb key_id EmptyString) eqn:Hempty.
        -- rewrite _request_unfold.
           rewrite (bind_inl _ _ w (ValueError auth_required) w).
           ++ apply one_round_refl.
           ++ apply guard_refuses. left. unfold truthy_str.
              now rewrite Hk, Hempty.
        -- apply String.eqb_neq in Hempty.
           rewrite (_request_signed_run self method path params json_data w
                      key_id key Hk Hempty Hp).
           destruct (rsa_sign key _); simpl.
           ++ apply one_round_signing.
           ++ apply one_round_both.
      * rewrite _request_unfold.
        rewrite (bind_inl _ _ w (ValueError auth_required) w).
        -- apply one_round_refl.
        -- apply guard_refuses. now right.
    + rewrite _request_unfold.
      rewrite (bind_inl _ _ w (ValueError auth_required) w).
      * apply one_round_refl.
      * apply guard_refuses. left. unfold truthy_str. now rewrite Hk.
  - rewrite _request_public_world. apply one_round_sending.
Qed.

(** X8: whatever its arguments and whatever happens, one call of an
    endpoint leaves the environment alone, reads the clock at most once
    (and then signs exactly one message), and appends at most one request
    to the transport's log: earlier entries are kept, and a failed call is
    never repeated. *)
Theorem one_call_one_round self w :
  (forall limit status cursor event_ticker,
     one_round w (get_markets self limit status cursor event_ticker w).2)
  /\ (forall ticker, one_round w (get_market self ticker w).2)
  /\ (forall ticker depth, one_round w (get_orderbook self ticker depth w).2)
  /\ (forall ticker limit cursor,
       one_round w (get_trades self ticker limit cursor w).2)
  /\ (forall limit status cursor,
       one_round w (get_events self limit status cursor w).2)
  /\ (forall event_ticker, one_round w (get_event self event_ticker w).2)
  /\ one_round w (get_balance self w).2
  /\ (forall ticker settlement_status,
       one_round w (get_positions self ticker settlement_status w).2)
  /\ (forall ticker status, one_round w (get_orders self ticker status w).2)
  /\ (forall ticker side action count price order_type,
       one_round w
         (create_order self ticker side action count price order_type w).2)
  /\ (forall order_id, one_round w (cancel_order self order_id w).2).
Proof.
  repeat apply conj; intros;
    unfold get_markets, get_market, get_orderbook, get_trades, get_events,
      get_event, get_balance, get_positions, get_orders, create_order,
      cancel_order;
    rewrite ?unwrap_world; apply _request_one_round.
Qed.

(** ** Query mappings and bodies in full *)

Lemma set_if_int_other key value params key' :
  key <> key' -> set_if_int key value params !! key' = params !! key'.
Proof.
  intros Hne. unfold set_if_int. destruct value as [z |]; [| reflexivity].
  destruct (Z.eqb z 0); [reflexivity |].
  now apply lookup_insert_ne.
Qed.

Lemma set_if_str_lookup key value params :
  params !! key = None ->
  set_if_str key value params !! key = optional_str value.
Proof. intros Hnone. rewrite set_if_str_same, Hnone. reflexivity. Qed.

Lemma set_if_int_lookup key value params :
  params !! key = None ->
  set_if_int key value params !! key = optional_int value.
Proof. intros Hnone. rewrite set_if_int_same, Hnone. reflexivity. Qed.

(** Looks a key up in a mapping built by literal inserts and conditional
    entries. *)
Ltac lookup_entry :=
  simpl;
  repeat first
    [ rewrite lookup_insert_eq
    | rewrite set_if_str_lookup
    | rewrite set_if_int_lookup
    | rewrite lookup_insert_ne by done
    | rewrite set_if_str_other by done
    | rewrite set_if_int_other by done
    | rewrite lookup_empty ];
  reflexivity.

Ltac unlisted_key Hkey :=
  simpl;
  repeat first
    [ rewrite lookup_insert_ne by (intros <-; apply Hkey; set_solver)
    | rewrite set_if_str_other by (intros <-; apply Hkey; set_solver)
    | rewrite set_if_int_other by (intros <-; apply Hkey; set_solver) ];
  apply lookup_empty.

Ltac whole_query :=
  unfold query_is; simpl; eexists; split; [reflexivity |];
  split;
  [ repeat (apply Forall_cons_2; [lookup_entry |]); apply Forall_nil_2
  | let key := fresh "key" in let Hkey := fresh "Hkey" in
    intros key Hkey; unlisted_key Hkey ].

(** X9: the query mapping of each public endpoint, in full.  [limit] and
    [status] are always sent with the values given (nothing checks them: 0,
    a negative number or the empty string are sent as they are); a truthy
    [cursor], [event_ticker] or [depth] is sent as given; no other key is
    ever present. *)
Theorem public_query_mappings self w :
  (forall limit status cursor event_ticker,
     sends_one
       (query_is [("limit", Some (PyInt limit));
                  ("status", Some (PyStr status));
                  ("cursor", optional_str cursor);
                  ("event_ticker", optional_str event_ticker)])
       (get_markets self limit status cursor event_ticker) w)
  /\ (forall ticker depth,
       sends_one (query_is [("depth", optional_int depth)])
         (get_orderbook self ticker depth) w)
  /\ (forall ticker limit cursor,
       sends_one
         (query_is [("limit", Some (PyInt limit));
                    ("cursor", optional_str cursor)])
         (get_trades self ticker limit cursor) w)
  /\ (forall limit status cursor,
       sends_one
         (query_is [("limit", Some (PyInt limit));
                    ("status", Some (PyStr status));
                    ("cursor", optional_str cursor)])
         (get_events self limit status cursor) w)
  /\ (forall ticker,
       sends_one (fun req => req_params req = None) (get_market self ticker) w)
  /\ (forall event_ticker,
       sends_one (fun req => req_params req = None)
         (get_event self event_ticker) w).
Proof.
  repeat apply conj; intros;
    apply unwrap_sends_one, _request_public_sends;
    first [reflexivity | whole_query].
Qed.




(** X12: for an order whose type is not "limit" the [price] argument has no
    effect at all: the call is the same computation for any two prices. *)
Theorem price_ignored_unless_limit
    self ticker side action count price price' order_type :
  order_type <> "limit" ->
  create_order self ticker side action count price order_type =
    create_order self ticker side action count price' order_type.
Proof.
  intros Hne. unfold create_order.
  apply String.eqb_neq in Hne. now rewrite Hne.
Qed.

(** ** Results do not depend on the world *)

(** X13: against a transport whose answer does not depend on the calls made
    before, the result of a public endpoint is the same in any two worlds:
    calling it again, after any other calls, with the clock at another
    reading or under another environment, returns the same value or raises
    the same exception.  Nothing is cached and nothing is remembered. *)
Theorem public_results_are_repeatable self w w' :
  (forall log log' req, transport log req = transport log' req) ->
  (forall limit status cursor event_ticker,
     (get_markets self limit status cursor event_ticker w).1 =
       (get_markets self limit status cursor event_ticker w').1)
  /\ (forall ticker, (get_market self ticker w).1 = (get_market self ticker w').1)
  /\ (forall ticker depth,
       (get_orderbook self ticker depth w).1 =
         (get_orderbook self ticker depth w').1)
  /\ (forall ticker limit cursor,
       (get_trades self ticker limit cursor w).1 =
         (get_trades self ticker limit cursor w').1)
  /\ (forall limit status cursor,
       (get_events self limit status cursor w).1 =
         (get_events self limit status cursor w').1)
  /\ (forall event_ticker,
       (get_event self event_ticker w).1 = (get_event self event_ticker w').1)
  /\ (forall ticker depth,
       (get_orderbook self ticker depth
          (get_orderbook self ticker depth w).2).1 =
         (get_orderbook self ticker depth w).1).
Proof.
  intros Ht.
  assert (Hreq : forall method path params json_data w1 w2,
             (_request self method path params json_data false w1).1 =
               (_request self method path params json_data false w2).1).
  { intros. rewrite !_request_public_run. simpl.
    now rewrite (Ht (sent w1) (sent w2)). }
  repeat apply conj; intros;
    unfold get_markets, get_market, get_orderbook, get_trades, get_events,
      get_event;
    rewrite !unwrap_run; simpl; f_equal; apply Hreq.
Qed.

(** X14: a ticker is spliced into the path as it is, without escaping: a
    ticker that ends in [/orderbook] makes [get_market] request the very
    URL [get_orderbook] requests for the ticker in front of it. *)
Theorem ticker_is_spliced_verbatim self ticker w :
  exists url,
    url = base_url self +:+ "/markets/" +:+ ticker +:+ "/orderbook"
    /\ sends_one (fun req => req_url req = url)
         (get_market self (ticker +:+ "/orderbook")) w
    /\ (forall depth,
         sends_one (fun req => req_url req = url)
           (get_orderbook self ticker depth) w).
Proof.
  eexists. split; [reflexivity |].
  split; intros; apply unwrap_sends_one, _request_public_sends; reflexivity.
Qed.

(** ** Construction in full *)

Lemma __init___run api_key0 private_key_pem0 base_url0 (demo : bool) w :
  let key_id := resolved api_key0 "KALSHI_API_KEY" w in
  let pem := resolved private_key_pem0 "KALSHI_PRIVATE_KEY" w in
  let url :=
    if demo then DEMO_BASE_URL else or_default base_url0 DEFAULT_BASE_URL in
  __init__ api_key0 private_key_pem0 base_url0 demo w =
    match pem with
    | Some text =>
        if String.eqb text EmptyString
        then (inr (mkClient key_id pem url None), w)
        else match load_pem_private_key (encode text) with
             | inl e => (inl e, w)
             | inr key => (inr (mkClient key_id pem url (Some key)), w)
             end
    | None => (inr (mkClient key_id pem url None), w)
    end.
Proof.
  unfold __init__, bind, resolved. rewrite !or_environ_run.
  destruct (if truthy_str private_key_pem0 then _ else _) as [text |];
    [| reflexivity].
  destruct (String.eqb text EmptyString); [reflexivity |].
  unfold lift. now destruct (load_pem_private_key (encode text)).
Qed.

(** X15: construction reads the environment and nothing else: in every
    case the world is left as it was (no clock reading, no signature, no
    request).  With no PEM text, or an empty one, the client is built
    without a private key and the loader is not consulted; with a non-empty
    PEM text the client holds the key the loader returns, and when the
    loader raises, construction raises the same exception and there is no
    client. *)
Theorem private_key_follows_pem api_key0 private_key_pem0 base_url0 demo w :
  let pem := resolved private_key_pem0 "KALSHI_PRIVATE_KEY" w in
  (__init__ api_key0 private_key_pem0 base_url0 demo w).2 = w
  /\ (truthy_str pem = false ->
      exists self,
        __init__ api_key0 private_key_pem0 base_url0 demo w = (inr self, w)
        /\ _private_key self = None)
  /\ (forall text key,
        pem = Some text -> text <> EmptyString ->
        load_pem_private_key (encode text) = inr key ->
        exists self,
          __init__ api_key0 private_key_pem0 base_url0 demo w = (inr self, w)
          /\ _private_key self = Some key
          /\ private_key_pem self = Some text)
  /\ (forall text e,
        pem = Some text -> text <> EmptyString ->
        load_pem_private_key (encode text) = inl e ->
        __init__ api_key0 private_key_pem0 base_url0 demo w = (inl e, w)).
Proof.
  intros pem. rewrite __init___run. fold pem. repeat apply conj.
  - destruct pem as [text |]; [| reflexivity].
    destruct (String.eqb text EmptyString); [reflexivity |].
    now destruct (load_pem_private_key (encode text)).
  - intros Hfalsy. destruct pem as [text |]; [| now eexists].
    simpl in Hfalsy. apply negb_false_iff in Hfalsy. rewrite Hfalsy.
    now eexists.
  - intros text key -> Hne Hload. apply String.eqb_neq in Hne.
    rewrite Hne, Hload. now eexists.
  - intros text e -> Hne Hload. apply String.eqb_neq in Hne.
    now rewrite Hne, Hload.
Qed.

Lemma __init___private_key api_key0 private_key_pem0 base_url0 demo w self w' :
  __init__ api_key0 private_key_pem0 base_url0 demo w = (inr self, w') ->
  api_key self = resolved api_key0 "KALSHI_API_KEY" w
  /\ if truthy_str (resolved private_key_pem0 "KALSHI_PRIVATE_KEY" w)
     then exists key, _private_key self = Some key
     else _private_key self = None.
Proof.
  rewrite __init___run.
  destruct (resolved private_key_pem0 "KALSHI_PRIVATE_KEY" w) as [text |];
    simpl.
  - destruct (String.eqb text EmptyString); simpl.
    + now intros [= <- <-].
    + destruct (load_pem_private_key (encode text)) as [e | key];
        [intros H; discriminate H |].
      intros [= <- <-]. split; [reflexivity | now exists key].
  - now intros [= <- <-].
Qed.

(** X16: a client constructed without a key identifier or without PEM text
    (neither as a non-empty argument nor as a non-empty environment
    variable) cannot make an authenticated call: each of the five
    authenticated endpoints raises the guard's [ValueError] in any world and
    leaves that world as it is. *)
Theorem unconfigured_client_cannot_authenticate
    api_key0 private_key_pem0 base_url0 demo w self w' :
  __init__ api_key0 private_key_pem0 base_url0 demo w = (inr self, w') ->
  truthy_str (resolved api_key0 "KALSHI_API_KEY" w) = false
  \/ truthy_str (resolved private_key_pem0 "KALSHI_PRIVATE_KEY" w) = false ->
  forall w2,
    get_balance self w2 = (inl (ValueError auth_required), w2)
    /\ (forall ticker settlement_status,
          get_positions self ticker settlement_status w2 =
            (inl (ValueError auth_required), w2))
    /\ (forall ticker status,
          get_orders self ticker status w2 =
            (inl (ValueError auth_required), w2))
    /\ (forall ticker side action count price order_type,
          create_order self ticker side action count price order_type w2 =
            (inl (ValueError auth_required), w2))
    /\ (forall order_id,
          cancel_order self order_id w2 =
            (inl (ValueError auth_required), w2)).
Proof.
  intros Hinit Hmissing w2.
  destruct (__init___private_key _ _ _ _ _ _ _ Hinit) as [Hk Hp].
  assert (Habsent : truthy_str (api_key self) = false
                    \/ _private_key self = None).
  { destruct Hmissing as [Hfalsy | Hfalsy].
    - left. now rewrite Hk.
    - right. now rewrite Hfalsy in Hp. }
  assert (Hreq : forall method path params json_data,
             _request self method path params json_data true w2 =
               (inl (ValueError auth_required), w2)).
  { intros. rewrite _request_unfold. apply bind_inl.
    now apply guard_refuses. }
  repeat split; intros;
    first [ apply Hreq | apply unwrap_inl, Hreq ].
Qed.

(** X17: a client constructed with a non-empty key identifier and a PEM
    text the loader accepts passes the guard: its signer reads the clock
    and hands timestamp, method and path to the signing primitive, in any
    world. *)
Theorem configured_client_signs
    api_key0 private_key_pem0 base_url0 demo w self w' :
  __init__ api_key0 private_key_pem0 base_url0 demo w = (inr self, w') ->
  truthy_str (resolved api_key0 "KALSHI_API_KEY" w) = true ->
  truthy_str (resolved private_key_pem0 "KALSHI_PRIVATE_KEY" w) = true ->
  forall method path w2,
    (_get_auth_headers self method path w2).2 =
      after_signing
        (encode (str (clock_ms (ticks w2)) +:+ method +:+ path)) w2.
Proof.
  intros Hinit Hid Hpem method path w2.
  destruct (__init___private_key _ _ _ _ _ _ _ Hinit) as [Hk Hp].
  rewrite Hpem in Hp. destruct Hp as [key Hp].
  rewrite <- Hk in Hid. unfold truthy_str in Hid.
  destruct (api_key self) as [key_id |] eqn:Hkey; [| discriminate Hid].
  apply negb_true_iff, String.eqb_neq in Hid.
  now rewrite (headers_run self method path w2 key_id key Hkey Hid Hp).
Qed.

(** ** Each endpoint's run, call by call *)

Lemma public_runs self w :
  (forall limit status cursor event_ticker,
     let req :=
       plain_get (base_url self) "/markets"
         (Some (markets_query limit status cursor event_ticker)) in
     get_markets self limit status cursor event_ticker w =
       (unwrapped "markets" (PyList []) (outcome (transport (sent w) req)),
        after_sending req w))
  /\ (forall ticker,
       let req :=
         plain_get (base_url self) ("/markets/" +:+ ticker) None in
       get_market self ticker w =
         (unwrapped "market" (PyDict ∅) (outcome (transport (sent w) req)),
          after_sending req w))
  /\ (forall ticker depth,
       let req :=
         plain_get (base_url self) ("/markets/" +:+ ticker +:+ "/orderbook")
           (Some (orderbook_query depth)) in
       get_orderbook self ticker depth w =
         (unwrapped "orderbook" (PyDict ∅)
            (outcome (transport (sent w) req)),
          after_sending req w))
  /\ (forall ticker limit cursor,
       let req :=
         plain_get (base_url self) ("/markets/" +:+ ticker +:+ "/trades")
           (Some (trades_query limit cursor)) in
       get_trades self ticker limit cursor w =
         (unwrapped "trades" (PyList []) (outcome (transport (sent w) req)),
          after_sending req w))
  /\ (forall limit status cursor,
       let req :=
         plain_get (base_url self) "/events"
           (Some (events_query limit status cursor)) in
       get_events self limit status cursor w =
         (unwrapped "events" (PyList []) (outcome (transport (sent w) req)),
          after_sending req w))
  /\ (forall event_ticker,
       let req :=
         plain_get (base_url self) ("/events/" +:+ event_ticker) None in
       get_event self event_ticker w =
         (unwrapped "event" (PyDict ∅) (outcome (transport (sent w) req)),
          after_sending req w)).
Proof.
  repeat apply conj; intros;
    unfold get_markets, get_market, get_orderbook, get_trades, get_events,
      get_event;
    rewrite unwrap_run, _request_public_run; reflexivity.
Qed.

Lemma signed_runs self w key_id key :
  api_key self = Some key_id -> key_id <> EmptyString ->
  _private_key self = Some key ->
  (forall signature,
     let message := signed_message w "GET" "/portfolio/balance" in
     let req :=
       signed_request (base_url self) w key_id signature "GET"
         "/portfolio/balance" None None in
     rsa_sign key message = inr signature ->
     get_balance self w =
       (outcome (transport (sent w) req),
        after_sending req (after_signing message w)))
  /\ (forall ticker settlement_status signature,
       let message := signed_message w "GET" "/portfolio/positions" in
       let req :=
         signed_request (base_url self) w key_id signature "GET"
           "/portfolio/positions"
           (Some (positions_query ticker settlement_status)) None in
       rsa_sign key message = inr signature ->
       get_positions self ticker settlement_status w =
         (unwrapped "market_positions" (PyList [])
            (outcome (transport (sent w) req)),
          after_sending req (after_signing message w)))
  /\ (forall ticker status signature,
       let message := signed_message w "GET" "/portfolio/orders" in
       let req :=
         signed_request (base_url self) w key_id signature "GET"
           "/portfolio/orders" (Some (orders_query ticker status)) None in
       rsa_sign key message = inr signature ->
       get_orders self ticker status w =
         (unwrapped "orders" (PyList []) (outcome (transport (sent w) req)),
          after_sending req (after_signing message w)))
  /\ (forall ticker side action count price order_type signature,
       let message := signed_message w "POST" "/portfolio/orders" in
       let req :=
         signed_request (base_url self) w key_id signature "POST"
           "/portfolio/orders" None
           (Some (order_body ticker side action count price order_type)) in
       rsa_sign key message = inr signature ->
       create_order self ticker side action count price order_type w =
         (unwrapped "order" (PyDict ∅) (outcome (transport (sent w) req)),
          after_sending req (after_signing message w)))
  /\ (forall order_id signature,
       let message :=
         signed_message w "DELETE" ("/portfolio/orders/" +:+ order_id) in
       let req :=
         signed_request (base_url self) w key_id signature "DELETE"
           ("/portfolio/orders/" +:+ order_id) None None in
       rsa_sign key message = inr signature ->
       cancel_order self order_id w =
         (unwrapped "order" (PyDict ∅) (outcome (transport (sent w) req)),
          after_sending req (after_signing message w))).
Proof.
  intros Hk Hne Hp.
  assert (Hreq : forall method path params json_data signature,
             rsa_sign key (signed_message w method path) = inr signature ->
             _request self method path params json_data true w =
               (outcome
                  (transport (sent w)
                     (signed_request (base_url self) w key_id signature
                        method path params json_data)),
                after_sending
                  (signed_request (base_url self) w key_id signature method
                     path params json_data)
                  (after_signing (signed_message w method path) w))).
  { intros method path params json_data signature Hsig.
    rewrite (_request_signed_run self method path params json_data w key_id
               key Hk Hne Hp).
    unfold signed_message in Hsig. now rewrite Hsig. }
  repeat apply conj; intros;
    unfold get_balance, get_positions, get_orders, create_order,
      cancel_order;
    rewrite ?unwrap_run;
    match goal with
    | H : rsa_sign _ _ = inr _ |- _ => rewrite (Hreq _ _ _ _ _ H)
    end;
    reflexivity.
Qed.

(** Closes a goal about one call from the run of its endpoint, the
    transport's answer, the value of [outcome] there and the lookups among
    the hypotheses. *)
Ltac by_runs :=
  repeat match goal with x := _ |- _ => subst x end;
  first
    [ match goal with
      | Hsig : rsa_sign _ _ = inr _, S : forall _, _ |- _ =>
          rewrite (S _ Hsig) || rewrite (S _ _ Hsig)
          || rewrite (S _ _ _ Hsig) || rewrite (S _ _ _ _ _ _ _ Hsig)
      end
    | match goal with R : forall _, _ |- _ => rewrite R end ];
  match goal with Ht : transport _ _ = _ |- _ => rewrite Ht end;
  repeat match goal with Hout : outcome _ = _ |- _ => rewrite Hout end;
  simpl;
  repeat match goal with H : _ !! _ = _ |- _ => rewrite H end;
  reflexivity.

(** C6: a call whose request the transport answers with a response that is
    not an HTTP error and whose body parses to an object without the field
    the method unwraps returns the empty list (list endpoints) or the empty
    mapping (single-resource endpoints) and raises nothing; the world is
    the one after that single request (and, for the authenticated
    endpoints, after the one signature). *)
Theorem missing_field_defaults_to_empty self w response envelope :
  ~ (400 <= status_code response < 600) ->
  json_loads (text response) = Some (PyDict envelope) ->
  (forall limit status cursor event_ticker,
     let req := plain_get (base_url self) "/markets"
                  (Some (markets_query limit status cursor event_ticker)) in
     transport (sent w) req = inr response ->
     envelope !! "markets" = None ->
     get_markets self limit status cursor event_ticker w = (inr (PyList []), after_sending req w))
  /\ (forall ticker,
     let req := plain_get (base_url self) ("/markets/" +:+ ticker)
                  None in
     transport (sent w) req = inr response ->
     envelope !! "market" = None ->
     get_market self ticker w = (inr (PyDict ∅), after_sending req w))
  /\ (forall ticker depth,
     let req := plain_get (base_url self) ("/markets/" +:+ ticker +:+ "/orderbook")
                  (Some (orderbook_query depth)) in
     transport (sent w) req = inr response ->
     envelope !! "orderbook" = None ->
     get_orderbook self ticker depth w = (inr (PyDict ∅), after_sending req w))
  /\ (forall ticker limit cursor,
     let req := plain_get (base_url self) ("/markets/" +:+ ticker +:+ "/trades")
                  (Some (trades_query limit cursor)) in
     transport (sent w) req = inr response ->
     envelope !! "trades" = None ->
     get_trades self ticker limit cursor w = (inr (PyList []), after_sending req w))
  /\ (forall limit status cursor,
     let req := plain_get (base_url self) "/events"
                  (Some (events_query limit status cursor)) in
     transport (sent w) req = inr response ->
     envelope !! "events" = None ->
     get_events self limit status cursor w = (inr (PyList []), after_sending req w))
  /\ (forall event_ticker,
     let req := plain_get (base_url self) ("/events/" +:+ event_ticker)
                  None in
     transport (sent w) req = inr response ->
     envelope !! "event" = None ->
     get_event self event_ticker w = (inr (PyDict ∅), after_sending req w))
  /\ (forall key_id key,
     api_key self = Some key_id -> key_id <> EmptyString ->
     _private_key self = Some key ->
     (forall ticker settlement_status signature,
        let message := signed_message w "GET" "/portfolio/positions" in
        let req := signed_request (base_url self) w key_id signature "GET"
                     "/portfolio/positions" (Some (positions_query ticker settlement_status))
                     None in
        rsa_sign key message = inr signature ->
        transport (sent w) req = inr response ->
        envelope !! "market_positions" = None ->
        get_positions self ticker settlement_status w =
          (inr (PyList []), after_sending req (after_signing message w)))
     /\ (forall ticker status signature,
        let message := signed_message w "GET" "/portfolio/orders" in
        let req := signed_request (base_url self) w key_id signature "GET"
                     "/portfolio/orders" (Some (orders_query ticker status))
                     None in
        rsa_sign key message = inr signature ->
        transport (sent w) req = inr response ->
        envelope !! "orders" = None ->
        get_orders self ticker status w =
          (inr (PyList []), after_sending req (after_signing message w)))
     /\ (forall ticker side action count price order_type signature,
        let message := signed_message w "POST" "/portfolio/orders" in
        let req := signed_request (base_url self) w key_id signature "POST"
                     "/portfolio/orders" None
                     (Some (order_body ticker side action count price order_type)) in
        rsa_sign key message = inr signature ->
        transport (sent w) req = inr response ->
        envelope !! "order" = None ->
        create_order self ticker side action count price order_type w =
          (inr (PyDict ∅), after_sending req (after_signing message w)))
     /\ (forall order_id signature,
        let message := signed_message w "DELETE" ("/portfolio/orders/" +:+ order_id) in
        let req := signed_request (base_url self) w key_id signature "DELETE"
                     ("/portfolio/orders/" +:+ order_id) None
                     None in
        rsa_sign key message = inr signature ->
        transport (sent w) req = inr response ->
        envelope !! "order" = None ->
        cancel_order self order_id w =
          (inr (PyDict ∅), after_sending req (after_signing message w)))).
Proof.
  intros Hstatus Hjson.
  pose proof (outcome_value response _ Hstatus Hjson) as Hout.
  destruct (public_runs self w) as (R1 & R2 & R3 & R4 & R5 & R6).
  repeat apply conj; try (intros; by_runs).
  intros key_id key Hk Hne Hp.
  destruct (signed_runs self w key_id key Hk Hne Hp)
    as (S1 & S2 & S3 & S4 & S5).
  repeat apply conj; intros; by_runs.
Qed.

(** X2: when the transport raises on the request of a call, the call raises
    that same exception and the world is the one after that single request:
    nothing is caught and nothing is tried again. *)
Theorem transport_failure_propagates self w e :
  (forall limit status cursor event_ticker,
     let req := plain_get (base_url self) "/markets"
                  (Some (markets_query limit status cursor event_ticker)) in
     transport (sent w) req = inl e ->
     get_markets self limit status cursor event_ticker w = (inl e, after_sending req w))
  /\ (forall ticker,
     let req := plain_get (base_url self) ("/markets/" +:+ ticker)
                  None in
     transport (sent w) req = inl e ->
     get_market self ticker w = (inl e, after_sending req w))
  /\ (forall ticker depth,
     let req := plain_get (base_url self) ("/markets/" +:+ ticker +:+ "/orderbook")
                  (Some (orderbook_query depth)) in
     transport (sent w) req = inl e ->
     get_orderbook self ticker depth w = (inl e, after_sending req w))
  /\ (forall ticker limit cursor,
     let req := plain_get (base_url self) ("/markets/" +:+ ticker +:+ "/trades")
                  (Some (trades_query limit cursor)) in
     transport (sent w) req = inl e ->
     get_trades self ticker limit cursor w = (inl e, after_sending req w))
  /\ (forall limit status cursor,
     let req := plain_get (base_url self) "/events"
                  (Some (events_query limit status cursor)) in
     transport (sent w) req = inl e ->
     get_events self limit status cursor w = (inl e, after_sending req w))
  /\ (forall event_ticker,
     let req := plain_get (base_url self) ("/events/" +:+ event_ticker)
                  None in
     transport (sent w) req = inl e ->
     get_event self event_ticker w = (inl e, after_sending req w))
  /\ (forall key_id key,
     api_key self = Some key_id -> key_id <> EmptyString ->
     _private_key self = Some key ->
     (forall signature,
        let message := signed_message w "GET" "/portfolio/balance" in
        let req := signed_request (base_url self) w key_id signature "GET"
                     "/portfolio/balance" None
                     None in
        rsa_sign key message = inr signature ->
        transport (sent w) req = inl e ->
        get_balance self w =
          (inl e, after_sending req (after_signing message w)))
     /\ (forall ticker settlement_status signature,
        let message := signed_message w "GET" "/portfolio/positions" in
        let req := signed_request (base_url self) w key_id signature "GET"
                     "/portfolio/positions" (Some (positions_query ticker settlement_status))
                     None in
        rsa_sign key message = inr signature ->
        transport (sent w) req = inl e ->
        get_positions self ticker settlement_status w =
          (inl e, after_sending req (after_signing message w)))
     /\ (forall ticker status signature,
        let message := signed_message w "GET" "/portfolio/orders" in
        let req := signed_request (base_url self) w key_id signature "GET"
                     "/portfolio/orders" (Some (orders_query ticker status))
                     None in
        rsa_sign key message = inr signature ->
        transport (sent w) req = inl e ->
        get_orders self ticker status w =
          (inl e, after_sending req (after_signing message w)))
     /\ (forall ticker side action count price order_type signature,
        let message := signed_message w "POST" "/portfolio/orders" in
        let req := signed_request (base_url self) w key_id signature "POST"
                     "/portfolio/orders" None
                     (Some (order_body ticker side action count price order_type)) in
        rsa_sign key message = inr signature ->
        transport (sent w) req = inl e ->
        create_order self ticker side action count price order_type w =
          (inl e, after_sending req (after_signing message w)))
     /\ (forall order_id signature,
        let message := signed_message w "DELETE" ("/portfolio/orders/" +:+ order_id) in
        let req := signed_request (base_url self) w key_id signature "DELETE"
                     ("/portfolio/orders/" +:+ order_id) None
                     None in
        rsa_sign key message = inr signature ->
        transport (sent w) req = inl e ->
        cancel_order self order_id w =
          (inl e, after_sending req (after_signing message w)))).
Proof.
  assert (Hout : outcome (inl e) = inl e) by reflexivity.
  destruct (public_runs self w) as (R1 & R2 & R3 & R4 & R5 & R6).
  repeat apply conj; try (intros; by_runs).
  intros key_id key Hk Hne Hp.
  destruct (signed_runs self w key_id key Hk Hne Hp)
    as (S1 & S2 & S3 & S4 & S5).
  repeat apply conj; intros; by_runs.
Qed.

(** X3: when the transport answers the request of a call with a response
    that is not an HTTP error but whose body does not parse as JSON, the
    call raises the [JSONDecodeError] for that body; the world is the one
    after that single request. *)
Theorem unparseable_body_raises self w response :
  ~ (400 <= status_code response < 600) ->
  json_loads (text response) = None ->
  (forall limit status cursor event_ticker,
     let req := plain_get (base_url self) "/markets"
                  (Some (markets_query limit status cursor event_ticker)) in
     transport (sent w) req = inr response ->
     get_markets self limit status cursor event_ticker w = (inl (JSONDecodeError (text response)), after_sending req w))
  /\ (forall ticker,
     let req := plain_get (base_url self) ("/markets/" +:+ ticker)
                  None in
     transport (sent w) req = inr response ->
     get_market self ticker w = (inl (JSONDecodeError (text response)), after_sending req w))
  /\ (forall ticker depth,
     let req := plain_get (base_url self) ("/markets/" +:+ ticker +:+ "/orderbook")
                  (Some (orderbook_query depth)) in
     transport (sent w) req = inr response ->
     get_orderbook self ticker depth w = (inl (JSONDecodeError (text response)), after_sending req w))
  /\ (forall ticker limit cursor,
     let req := plain_get (base_url self) ("/markets/" +:+ ticker +:+ "/trades")
                  (Some (trades_query limit cursor)) in
     transport (sent w) req = inr response ->
     get_trades self ticker limit cursor w = (inl (JSONDecodeError (text response)), after_sending req w))
  /\ (forall limit status cursor,
     let req := plain_get (base_url self) "/events"
                  (Some (events_query limit status cursor)) in
     transport (sent w) req = inr response ->
     get_events self limit status cursor w = (inl (JSONDecodeError (text response)), after_sending req w))
  /\ (forall event_ticker,
     let req := plain_get (base_url self) ("/events/" +:+ event_ticker)
                  None in
     transport (sent w) req = inr response ->
     get_event self event_ticker w = (inl (JSONDecodeError (text response)), after_sending req w))
  /\ (forall key_id key,
     api_key self = Some key_id -> key_id <> EmptyString ->
     _private_key self = Some key ->
     (forall signature,
        let message := signed_message w "GET" "/portfolio/balance" in
        let req := signed_request (base_url self) w key_id signature "GET"
                     "/portfolio/balance" None
                     None in
        rsa_sign key message = inr signature ->
        transport (sent w) req = inr response ->
        get_balance self w =
          (inl (JSONDecodeError (text response)), after_sending req (after_signing message w)))
     /\ (forall ticker settlement_status signature,
        let message := signed_message w "GET" "/portfolio/positions" in
        let req := signed_request (base_url self) w key_id signature "GET"
                     "/portfolio/positions" (Some (positions_query ticker settlement_status))
                     None in
        rsa_sign key message = inr signature ->
        transport (sent w) req = inr response ->
        get_positions self ticker settlement_status w =
          (inl (JSONDecodeError (text response)), after_sending req (after_signing message w)))
     /\ (forall ticker status signature,
        let message := signed_message w "GET" "/portfolio/orders" in
        let req := signed_request (base_url self) w key_id signature "GET"
                     "/portfolio/orders" (Some (orders_query ticker status))
                     None in
        rsa_sign key message = inr signature ->
        transport (sent w) req = inr response ->
        get_orders self ticker status w =
          (inl (JSONDecodeError (text response)), after_sending req (after_signing message w)))
     /\ (forall ticker side action count price order_type signature,
        let message := signed_message w "POST" "/portfolio/orders" in
        let req := signed_request (base_url self) w key_id signature "POST"
                     "/portfolio/orders" None
                     (Some (order_body ticker side action count price order_type)) in
        rsa_sign key message = inr signature ->
        transport (sent w) req = inr response ->
        create_order self ticker side action count price order_type w =
          (inl (JSONDecodeError (text response)), after_sending req (after_signing message w)))
     /\ (forall order_id signature,
        let message := signed_message w "DELETE" ("/portfolio/orders/" +:+ order_id) in
        let req := signed_request (base_url self) w key_id signature "DELETE"
                     ("/portfolio/orders/" +:+ order_id) None
                     None in
        rsa_sign key message = inr signature ->
        transport (sent w) req = inr response ->
        cancel_order self order_id w =
          (inl (JSONDecodeError (text response)), after_sending req (after_signing message w)))).
Proof.
  intros Hstatus Hjson.
  pose proof (outcome_unparseable response Hstatus Hjson) as Hout.
  destruct (public_runs self w) as (R1 & R2 & R3 & R4 & R5 & R6).
  repeat apply conj; try (intros; by_runs).
  intros key_id key Hk Hne Hp.
  destruct (signed_runs self w key_id key Hk Hne Hp)
    as (S1 & S2 & S3 & S4 & S5).
  repeat apply conj; intros; by_runs.
Qed.

(** X4: when the envelope the transport returns for a call has the field
    the endpoint unwraps, the call returns the value found there, whatever
    its shape: nothing checks that a list endpoint got a list or a
    single-resource endpoint a mapping. *)
Theorem present_field_is_returned self w response envelope :
  ~ (400 <= status_code response < 600) ->
  json_loads (text response) = Some (PyDict envelope) ->
  (forall limit status cursor event_ticker value,
     let req := plain_get (base_url self) "/markets"
                  (Some (markets_query limit status cursor event_ticker)) in
     transport (sent w) req = inr response ->
     envelope !! "markets" = Some value ->
     get_markets self limit status cursor event_ticker w = (inr value, after_sending req w))
  /\ (forall ticker value,
     let req := plain_get (base_url self) ("/markets/" +:+ ticker)
                  None in
     transport (sent w) req = inr response ->
     envelope !! "market" = Some value ->
     get_market self ticker w = (inr value, after_sending req w))
  /\ (forall ticker depth value,
     let req := plain_get (base_url self) ("/markets/" +:+ ticker +:+ "/orderbook")
                  (Some (orderbook_query depth)) in
     transport (sent w) req = inr response ->
     envelope !! "orderbook" = Some value ->
     get_orderbook self ticker depth w = (inr value, after_sending req w))
  /\ (forall ticker limit cursor value,
     let req := plain_get (base_url self) ("/markets/" +:+ ticker +:+ "/trades")
                  (Some (trades_query limit cursor)) in
     transport (sent w) req = inr response ->
     envelope !! "trades" = Some value ->
     get_trades self ticker limit cursor w = (inr value, after_sending req w))
  /\ (forall limit status cursor value,
     let req := plain_get (base_url self) "/events"
                  (Some (events_query limit status cursor)) in
     transport (sent w) req = inr response ->
     envelope !! "events" = Some value ->
     get_events self limit status cursor w = (inr value, after_sending req w))
  /\ (forall event_ticker value,
     let req := plain_get (base_url self) ("/events/" +:+ event_ticker)
                  None in
     transport (sent w) req = inr response ->
     envelope !! "event" = Some value ->
     get_event self event_ticker w = (inr value, after_sending req w))
  /\ (forall key_id key,
     api_key self = Some key_id -> key_id <> EmptyString ->
     _private_key self = Some key ->
     (forall ticker settlement_status signature value,
        let message := signed_message w "GET" "/portfolio/positions" in
        let req := signed_request (base_url self) w key_id signature "GET"
                     "/portfolio/positions" (Some (positions_query ticker settlement_status))
                     None in
        rsa_sign key message = inr signature ->
        transport (sent w) req = inr response ->
        envelope !! "market_positions" = Some value ->
        get_positions self ticker settlement_status w =
          (inr value, after_sending req (after_signing message w)))
     /\ (forall ticker status signature value,
        let message := signed_message w "GET" "/portfolio/orders" in
        let req := signed_request (base_url self) w key_id signature "GET"
                     "/portfolio/orders" (Some (orders_query ticker status))
                     None in
        rsa_sign key message = inr signature ->
        transport (sent w) req = inr response ->
        envelope !! "orders" = Some value ->
        get_orders self ticker status w =
          (inr value, after_sending req (after_signing message w)))
     /\ (forall ticker side action count price order_type signature value,
        let message := signed_message w "POST" "/portfolio/orders" in
        let req := signed_request (base_url self) w key_id signature "POST"
                     "/portfolio/orders" None
                     (Some (order_body ticker side action count price order_type)) in
        rsa_sign key message = inr signature ->
        transport (sent w) req = inr response ->
        envelope !! "order" = Some value ->
        create_order self ticker side action count price order_type w =
          (inr value, after_sending req (after_signing message w)))
     /\ (forall order_id signature value,
        let message := signed_message w "DELETE" ("/portfolio/orders/" +:+ order_id) in
        let req := signed_request (base_url self) w key_id signature "DELETE"
                     ("/portfolio/orders/" +:+ order_id) None
                     None in
        rsa_sign key message = inr signature ->
        transport (sent w) req = inr response ->
        envelope !! "order" = Some value ->
        cancel_order self order_id w =
          (inr value, after_sending req (after_signing message w)))).
Proof.
  intros Hstatus Hjson.
  pose proof (outcome_value response _ Hstatus Hjson) as Hout.
  destruct (public_runs self w) as (R1 & R2 & R3 & R4 & R5 & R6).
  repeat apply conj; try (intros; by_runs).
  intros key_id key Hk Hne Hp.
  destruct (signed_runs self w key_id key Hk Hne Hp)
    as (S1 & S2 & S3 & S4 & S5).
  repeat apply conj; intros; by_runs.
Qed.

(** X5: when the body of the response to a call parses to something that is
    not an object (a list, a string, a number, [null]), the ten unwrapping
    endpoints raise the [AttributeError] of [result.get], whose message
    names the type of the value, after the request was made, while
    [get_balance], which does not unwrap, returns the parsed value as it
    is. *)
Theorem non_object_response self w response value :
  ~ (400 <= status_code response < 600) ->
  json_loads (text response) = Some value ->
  (forall envelope, value <> PyDict envelope) ->
  (forall limit status cursor event_ticker,
     let req := plain_get (base_url self) "/markets"
                  (Some (markets_query limit status cursor event_ticker)) in
     transport (sent w) req = inr response ->
     get_markets self limit status cursor event_ticker w = (inl (AttributeError (no_get value)), after_sending req w))
  /\ (forall ticker,
     let req := plain_get (base_url self) ("/markets/" +:+ ticker)
                  None in
     transport (sent w) req = inr response ->
     get_market self ticker w = (inl (AttributeError (no_get value)), after_sending req w))
  /\ (forall ticker depth,
     let req := plain_get (base_url self) ("/markets/" +:+ ticker +:+ "/orderbook")
                  (Some (orderbook_query depth)) in
     transport (sent w) req = inr response ->
     get_orderbook self ticker depth w = (inl (AttributeError (no_get value)), after_sending req w))
  /\ (forall ticker limit cursor,
     let req := plain_get (base_url self) ("/markets/" +:+ ticker +:+ "/trades")
                  (Some (trades_query limit cursor)) in
     transport (sent w) req = inr response ->
     get_trades self ticker limit cursor w = (inl (AttributeError (no_get value)), after_sending req w))
  /\ (forall limit status cursor,
     let req := plain_get (base_url self) "/events"
                  (Some (events_query limit status cursor)) in
     transport (sent w) req = inr response ->
     get_events self limit status cursor w = (inl (AttributeError (no_get value)), after_sending req w))
  /\ (forall event_ticker,
     let req := plain_get (base_url self) ("/events/" +:+ event_ticker)
                  None in
     transport (sent w) req = inr response ->
     get_event self event_ticker w = (inl (AttributeError (no_get value)), after_sending req w))
  /\ (forall key_id key,
     api_key self = Some key_id -> key_id <> EmptyString ->
     _private_key self = Some key ->
     (forall signature,
        let message := signed_message w "GET" "/portfolio/balance" in
        let req := signed_request (base_url self) w key_id signature "GET"
                     "/portfolio/balance" None
                     None in
        rsa_sign key message = inr signature ->
        transport (sent w) req = inr response ->
        get_balance self w =
          (inr value, after_sending req (after_signing message w)))
     /\ (forall ticker settlement_status signature,
        let message := signed_message w "GET" "/portfolio/positions" in
        let req := signed_request (base_url self) w key_id signature "GET"
                     "/portfolio/positions" (Some (positions_query ticker settlement_status))
                     None in
        rsa_sign key message = inr signature ->
        transport (sent w) req = inr response ->
        get_positions self ticker settlement_status w =
          (inl (AttributeError (no_get value)), after_sending req (after_signing message w)))
     /\ (forall ticker status signature,
        let message := signed_message w "GET" "/portfolio/orders" in
        let req := signed_request (base_url self) w key_id signature "GET"
                     "/portfolio/orders" (Some (orders_query ticker status))
                     None in
        rsa_sign key message = inr signature ->
        transport (sent w) req = inr response ->
        get_orders self ticker status w =
          (inl (AttributeError (no_get value)), after_sending req (after_signing message w)))
     /\ (forall ticker side action count price order_type signature,
        let message := signed_message w "POST" "/portfolio/orders" in
        let req := signed_request (base_url self) w key_id signature "POST"
                     "/portfolio/orders" None
                     (Some (order_body ticker side action count price order_type)) in
        rsa_sign key message = inr signature ->
        transport (sent w) req = inr response ->
        create_order self ticker side action count price order_type w =
          (inl (AttributeError (no_get value)), after_sending req (after_signing message w)))
     /\ (forall order_id signature,
        let message := signed_message w "DELETE" ("/portfolio/orders/" +:+ order_id) in
        let req := signed_request (base_url self) w key_id signature "DELETE"
                     ("/portfolio/orders/" +:+ order_id) None
                     None in
        rsa_sign key message = inr signature ->
        transport (sent w) req = inr response ->
        cancel_order self order_id w =
          (inl (AttributeError (no_get value)), after_sending req (after_signing message w)))).
Proof.
  intros Hstatus Hjson Hshape.
  pose proof (outcome_value response _ Hstatus Hjson) as Hout.
  destruct (public_runs self w) as (R1 & R2 & R3 & R4 & R5 & R6).
  destruct value as [| b | z | s | l | envelope];
    try (now destruct (Hshape envelope)).
  all: repeat apply conj; try (intros; by_runs).
  all: intros key_id key Hk Hne Hp.
  all: destruct (signed_runs self w key_id key Hk Hne Hp)
    as (S1 & S2 & S3 & S4 & S5).
  all: repeat apply conj; intros; by_runs.
Qed.

(** ** Optional parameters *)









End Pipeline.

(** * Properties of the command line *)

Section Script.

Context {ext : Collaborators} {console : Console}.

Implicit Types (t : Terminal) (w : World).

(** ** Running the script's monad *)

Lemma call_run {A} (m : M A) t :
  call m t =
    (match (m (world t)).1 with
     | inl e => inl (Raised e)
     | inr a => inr a
     end,
     mkTerminal (m (world t)).2 (stdout t)).
Proof. unfold call. now destruct (m (world t)) as [[e | a] w']. Qed.

Lemma cli_bind_inr {A B} (m : CLI A) (k : A -> CLI B) t a t' :
  m t = (inr a, t') -> cli_bind m k t = k a t'.
Proof. intros Hm. unfold cli_bind. now rewrite Hm. Qed.

Lemma cli_bind_inl {A B} (m : CLI A) (k : A -> CLI B) t e t' :
  m t = (inl e, t') -> cli_bind m k t = (inl e, t').
Proof. intros Hm. unfold cli_bind. now rewrite Hm. Qed.

Lemma keeps_world_ret {A} (a : A) : keeps_world (cli_ret a).
Proof. intros t. reflexivity. Qed.

Lemma keeps_world_raise {A} (e : cli_exn) : keeps_world (cli_raise (A := A) e).
Proof. intros t. reflexivity. Qed.

Lemma keeps_world_print line : keeps_world (print line).
Proof. intros t. reflexivity. Qed.

Lemma keeps_world_subscript value key : keeps_world (subscript value key).
Proof.
  intros t. unfold subscript. destruct value; try reflexivity.
  now destruct (d !! key).
Qed.

Lemma keeps_world_get value key dflt :
  keeps_world (call (py_get value key dflt)).
Proof. intros t. rewrite call_run. simpl. apply py_get_world. Qed.

Lemma keeps_world_bind {A B} (m : CLI A) (k : A -> CLI B) :
  keeps_world m -> (forall a, keeps_world (k a)) -> keeps_world (cli_bind m k).
Proof.
  intros Hm Hk t. unfold cli_bind. specialize (Hm t).
  destruct (m t) as [[e | a] t']; simpl in *; [exact Hm |].
  now rewrite Hk.
Qed.

Lemma keeps_world_for_each items (body : pyval -> CLI unit) :
  (forall item, keeps_world (body item)) -> keeps_world (for_each items body).
Proof.
  intros Hbody. induction items as [| item rest IH]; simpl.
  - apply keeps_world_ret.
  - apply keeps_world_bind; [apply Hbody | intros _; exact IH].
Qed.

Lemma keeps_world_for_in iterable (body : pyval -> CLI unit) :
  (forall item, keeps_world (body item)) -> keeps_world (for_in iterable body).
Proof.
  intros Hbody. destruct iterable; simpl;
    first [apply keeps_world_raise | now apply keeps_world_for_each].
Qed.

(** After a call into the client followed by printing only, the world is
    the one the call left. *)
Lemma call_then_print_world {A B} (m : M A) (k : A -> CLI B) t :
  (forall a, keeps_world (k a)) ->
  world (cli_bind (call m) k t).2 = (m (world t)).2.
Proof.
  intros Hk. unfold cli_bind. rewrite call_run.
  destruct (m (world t)) as [[e | a] w']; simpl; [reflexivity |].
  now rewrite Hk.
Qed.

(** ** The client the script builds *)

Lemma script_client t :
  call (__init__ None None None false) t =
    match environ (world t) !! "KALSHI_PRIVATE_KEY" with
    | Some pem =>
        if String.eqb pem EmptyString
        then (inr (mkClient (environ (world t) !! "KALSHI_API_KEY")
                     (Some pem) DEFAULT_BASE_URL None), t)
        else match load_pem_private_key (encode pem) with
             | inl e => (inl (Raised e), t)
             | inr key =>
                 (inr (mkClient (environ (world t) !! "KALSHI_API_KEY")
                         (Some pem) DEFAULT_BASE_URL (Some key)), t)
             end
    | None =>
        (inr (mkClient (environ (world t) !! "KALSHI_API_KEY") None
                DEFAULT_BASE_URL None), t)
    end.
Proof.
  rewrite call_run, __init___run. unfold resolved. simpl.
  destruct t as [w out]. simpl.
  destruct (environ w !! "KALSHI_PRIVATE_KEY") as [pem |]; [| reflexivity].
  destruct (String.eqb pem EmptyString); [reflexivity |].
  now destruct (load_pem_private_key (encode pem)).
Qed.

Lemma script_client_cases t :
  (exists e, call (__init__ None None None false) t = (inl (Raised e), t))
  \/ (exists client,
        call (__init__ None None None false) t = (inr client, t)
        /\ base_url client = DEFAULT_BASE_URL).
Proof.
  rewrite script_client.
  destruct (environ (world t) !! "KALSHI_PRIVATE_KEY") as [pem |].
  - destruct (String.eqb pem EmptyString).
    + right. now eexists.
    + destruct (load_pem_private_key (encode pem)) as [e | key].
      * left. now exists e.
      * right. now eexists.
  - right. now eexists.
Qed.

(** ** What the script does before any request *)

(** X18: the script builds its client before looking at which subcommand was
    given, so a PEM text in [KALSHI_PRIVATE_KEY] that the loader rejects
    makes every subcommand fail with the loader's exception, the public
    ones included, before anything is printed or sent; only the invocation
    without a subcommand, which prints the usage text and returns, is
    unaffected. *)
Theorem rejected_environment_key_stops_every_command t pem e :
  environ (world t) !! "KALSHI_PRIVATE_KEY" = Some pem ->
  pem <> EmptyString ->
  load_pem_private_key (encode pem) = inl e ->
  forall args,
    main args t =
      if truthy_str (args_command args) then (inl (Raised e), t)
      else (inr tt, mkTerminal (world t) (help_text :: stdout t)).
Proof.
  intros Henv Hne Hload args. unfold main.
  destruct (truthy_str (args_command args)); simpl; [| reflexivity].
  apply cli_bind_inl. rewrite script_client, Henv.
  apply String.eqb_neq in Hne. now rewrite Hne, Hload.
Qed.

Lemma endpoint_reads (client : KalshiClient) path params authenticated
    key dflt w :
  sends_at_most_one
    (fun req =>
       req_method req = "GET"
       /\ req_url req = base_url client +:+ path
       /\ req_json req = None)
    (bind (_request client "GET" path params None authenticated)
       (fun result => py_get result key dflt)) w.
Proof.
  apply unwrap_sends_at_most_one, _request_sends. now intros headers.
Qed.

(** X19: whatever the arguments and the environment, one run of the script
    hands at most one request to the transport, and that request is a GET
    without a body to a URL under the production base URL: the script can
    neither reach the demo environment nor place or cancel an order. *)
Theorem script_only_reads_production args t :
  sent (world (main args t).2) = sent (world t)
  \/ exists req path,
       sent (world (main args t).2) = req :: sent (world t)
       /\ req_method req = "GET"
       /\ req_url req = DEFAULT_BASE_URL +:+ path
       /\ req_json req = None.
Proof.
  unfold main.
  destruct (truthy_str (args_command args)); simpl; [| now left].
  destruct (script_client_cases t) as [[e Hfail] | (client & Hclient & Hurl)].
  { rewrite (cli_bind_inl _ _ t (Raised e) t Hfail). now left. }
  rewrite (cli_bind_inr _ _ t client t Hclient).
  assert (Hget : forall path params authenticated key dflt
                        (k : pyval -> CLI unit),
             (forall result, keeps_world (k result)) ->
             let run :=
               cli_bind
                 (call (bind (_request client "GET" path params None
                                authenticated)
                          (fun result => py_get result key dflt))) k t in
             sent (world run.2) = sent (world t)
             \/ exists req path,
                  sent (world run.2) = req :: sent (world t)
                  /\ req_method req = "GET"
                  /\ req_url req = DEFAULT_BASE_URL +:+ path
                  /\ req_json req = None).
  { intros path params authenticated key dflt k Hk run. unfold run.
    rewrite call_then_print_world by exact Hk.
    destruct (endpoint_reads client path params authenticated key dflt
                (world t)) as [Hsame | (req & Hlog & Hm & Hu & Hj)].
    - now left.
    - right. exists req, path. rewrite <- Hurl. auto. }
  destruct (command_is args "markets").
  { apply Hget. intros result. apply keeps_world_for_in. intros market.
    repeat first
      [ apply keeps_world_print | apply keeps_world_subscript
      | apply keeps_world_get
      | apply keeps_world_bind; [| intros ?] ]. }
  destruct (command_is args "market").
  { apply Hget. intros result. apply keeps_world_print. }
  destruct (command_is args "orderbook").
  { apply Hget. intros result. apply keeps_world_print. }
  destruct (command_is args "balance").
  { rewrite call_then_print_world.
    - destruct (_request_sends client "GET" "/portfolio/balance" None None
                  true
                  (fun req =>
                     req_method req = "GET"
                     /\ req_url req = base_url client +:+ "/portfolio/balance"
                     /\ req_json req = None) (world t))
        as [Hsame | (req & Hlog & Hm & Hu & Hj)].
      + now intros headers.
      + now left.
      + right. exists req, "/portfolio/balance". rewrite <- Hurl. auto.
    - intros result. apply keeps_world_bind; [apply keeps_world_get |].
      intros balance.
      destruct (format_dollars balance);
        [apply keeps_world_raise | apply keeps_world_print]. }
  destruct (command_is args "positions").
  { apply Hget. intros result. apply keeps_world_for_in. intros pos.
    repeat first
      [ apply keeps_world_print | apply keeps_world_subscript
      | apply keeps_world_bind; [| intros ?] ]. }
  now left.
Qed.

(** X20: when the environment gives no key identifier, or no PEM text (and
    any PEM text it does give is accepted by the loader), the [balance] and
    [positions] subcommands raise the guard's [ValueError] with nothing
    printed, nothing signed and nothing sent. *)
Theorem script_private_commands_need_environment t args :
  truthy_str (environ (world t) !! "KALSHI_API_KEY") = false
  \/ truthy_str (environ (world t) !! "KALSHI_PRIVATE_KEY") = false ->
  (forall pem,
     environ (world t) !! "KALSHI_PRIVATE_KEY" = Some pem ->
     pem <> EmptyString ->
     exists key, load_pem_private_key (encode pem) = inr key) ->
  args_command args = Some "balance" \/ args_command args = Some "positions" ->
  main args t = (inl (Raised (ValueError auth_required)), t).
Proof.
  intros Hmissing Hload Hcommand.
  assert (Hclient : exists client,
             call (__init__ None None None false) t = (inr client, t)
             /\ (truthy_str (api_key client) = false
                 \/ _private_key client = None)).
  { rewrite script_client.
    destruct (environ (world t) !! "KALSHI_PRIVATE_KEY") as [pem |] eqn:Hpem.
    - destruct (String.eqb pem EmptyString) eqn:Hempty.
      + eexists. split; [reflexivity | now right].
      + apply String.eqb_neq in Hempty.
        destruct (Hload pem eq_refl Hempty) as [key ->].
        eexists. split; [reflexivity |].
        destruct Hmissing as [Hid | Hfalsy]; [now left |].
        simpl in Hfalsy. apply negb_false_iff, String.eqb_eq in Hfalsy.
        contradiction.
    - eexists. split; [reflexivity | now right]. }
  destruct Hclient as (client & Hclient & Habsent).
  assert (Hreq : forall method path params json_data,
             _request client method path params json_data true (world t) =
               (inl (ValueError auth_required), world t)).
  { intros. rewrite _request_unfold. apply bind_inl.
    now apply guard_refuses. }
  unfold main.
  destruct Hcommand as [Hc | Hc]; unfold command_is; rewrite Hc; simpl;
    rewrite (cli_bind_inr _ _ t client t Hclient);
    apply cli_bind_inl; rewrite call_run.
  - unfold get_balance. rewrite Hreq. now destruct t.
  - unfold get_positions. rewrite (unwrap_inl _ _ _ _ _ _ (Hreq _ _ _ _)).
    now destruct t.
Qed.

(** ** What the script prints *)

Lemma printed_app lines lines' before :
  printed (lines ++ lines') before = printed lines' (printed lines before).
Proof. unfold printed. now rewrite rev_app_distr, <- app_assoc. Qed.

Lemma market_body_lines market t :
  listable market ->
  market_body (PyDict market) t =
    (inr tt, mkTerminal (world t) (printed (market_lines market) (stdout t))).
Proof.
  intros [[ticker Hticker] [title Htitle]].
  unfold market_body, market_lines, cli_bind, subscript, cli_ret, print, call,
    py_get, ret.
  rewrite Hticker, Htitle. reflexivity.
Qed.

Lemma market_body_no_ticker market t :
  market !! "ticker" = None ->
  market_body (PyDict market) t = (inl (KeyError "ticker"), t).
Proof.
  intros Hticker. unfold market_body, cli_bind, subscript, cli_raise.
  now rewrite Hticker.
Qed.

Lemma for_each_listing markets rest t :
  Forall listable markets ->
  for_each ((PyDict <$> markets) ++ rest) market_body t =
    for_each rest market_body
      (mkTerminal (world t) (printed (listing markets) (stdout t))).
Proof.
  intros Hgood. revert t.
  induction Hgood as [| market markets Hmarket _ IH]; intros t.
  - now destruct t.
  - change (listing (market :: markets))
      with (market_lines market ++ listing markets)%list.
    rewrite printed_app, fmap_cons. simpl. unfold cli_bind at 1.
    now rewrite (market_body_lines market t Hmarket), IH.
Qed.

Lemma script_client_accepted t :
  (forall pem,
     environ (world t) !! "KALSHI_PRIVATE_KEY" = Some pem ->
     pem <> EmptyString ->
     exists key, load_pem_private_key (encode pem) = inr key) ->
  exists client, call (__init__ None None None false) t = (inr client, t).
Proof.
  intros Hload. rewrite script_client.
  destruct (environ (world t) !! "KALSHI_PRIVATE_KEY") as [pem |];
    [| now eexists].
  destruct (String.eqb pem EmptyString) eqn:Hempty; [now eexists |].
  apply String.eqb_neq in Hempty.
  destruct (Hload pem eq_refl Hempty) as [key ->]. now eexists.
Qed.
Lemma script_client_production t :
  (forall pem,
     environ (world t) !! "KALSHI_PRIVATE_KEY" = Some pem ->
     pem <> EmptyString ->
     exists key, load_pem_private_key (encode pem) = inr key) ->
  exists client,
    call (__init__ None None None false) t = (inr client, t)
    /\ base_url client = DEFAULT_BASE_URL.
Proof.
  intros Hload. rewrite script_client.
  destruct (environ (world t) !! "KALSHI_PRIVATE_KEY") as [pem |];
    [| now eexists].
  destruct (String.eqb pem EmptyString) eqn:Hempty; [now eexists |].
  apply String.eqb_neq in Hempty.
  destruct (Hload pem eq_refl Hempty) as [key ->]. now eexists.
Qed.

(** X21: the [markets] subcommand, when the loader accepts any PEM text the
    environment gives and the transport answers the one request (a GET of
    [/markets] under the production URL with the [limit] and [status] of
    the arguments) with a response that is not an HTTP error and parses to
    an object.  If every market of the ["markets"] field is a dictionary
    with a ticker and a title, the script prints three lines per market, in
    the order of the listing, and returns; a missing field prints nothing.
    If some market has no ticker, the markets before it are printed in
    full and the script then raises [KeyError] for ["ticker"], printing
    nothing more.  In both cases that request is the only one made. *)
Theorem markets_are_listed_until_one_is_malformed
    t args response envelope (markets : list (gmap string pyval)) :
  args_command args = Some "markets" ->
  (forall pem,
     environ (world t) !! "KALSHI_PRIVATE_KEY" = Some pem ->
     pem <> EmptyString ->
     exists key, load_pem_private_key (encode pem) = inr key) ->
  let req :=
    plain_get DEFAULT_BASE_URL "/markets"
      (Some (markets_query (args_limit args) (args_status args) None None)) in
  transport (sent (world t)) req = inr response ->
  ~ (400 <= status_code response < 600) ->
  json_loads (text response) = Some (PyDict envelope) ->
  default (PyList []) (envelope !! "markets") = PyList (PyDict <$> markets) ->
  (Forall listable markets ->
   main args t =
     (inr tt,
      mkTerminal (after_sending req (world t))
        (printed (listing markets) (stdout t))))
  /\ (forall good bad rest,
        markets = (good ++ bad :: rest)%list ->
        Forall listable good ->
        bad !! "ticker" = None ->
        main args t =
          (inl (KeyError "ticker"),
           mkTerminal (after_sending req (world t))
             (printed (listing good) (stdout t)))).
Proof.
  intros Hcommand Hload req Ht Hstatus Hjson Hmarkets.
  destruct (script_client_production t Hload) as (client & Hclient & Hbase).
  assert (Hmain : main args t =
                    for_each (PyDict <$> markets) market_body
                      (mkTerminal (after_sending req (world t)) (stdout t))).
  { unfold main, command_is. rewrite Hcommand. simpl.
    rewrite (cli_bind_inr _ _ t client t Hclient).
    unfold cli_bind. rewrite call_run.
    destruct (public_runs client (world t)) as (Hrun & _).
    rewrite Hrun, Hbase. fold req.
    rewrite Ht, (outcome_value response _ Hstatus Hjson). simpl.
    now rewrite Hmarkets. }
  rewrite Hmain. split.
  - intros Hgood.
    rewrite <- (app_nil_r (PyDict <$> markets)).
    now rewrite (for_each_listing markets [] _ Hgood).
  - intros good bad rest -> Hgood Hbad.
    rewrite fmap_app, fmap_cons.
    rewrite (for_each_listing good _ _ Hgood). simpl.
    unfold cli_bind. now rewrite market_body_no_ticker by exact Hbad.
Qed.

(** X22: the [market] and [orderbook] subcommands, when the loader accepts
    any PEM text the environment gives and the transport answers the one
    request (a GET of [/markets/<ticker>], or of
    [/markets/<ticker>/orderbook] with an empty query mapping, under the
    production URL) with a response that is not an HTTP error and parses to
    an object: the script makes exactly one [print] call, whose text is the
    JSON dump (indent 2, so possibly several lines) of the unwrapped field,
    or of the empty mapping when the field is missing, and returns. *)
Theorem detail_commands_print_one_dump t args response envelope :
  (forall pem,
     environ (world t) !! "KALSHI_PRIVATE_KEY" = Some pem ->
     pem <> EmptyString ->
     exists key, load_pem_private_key (encode pem) = inr key) ->
  ~ (400 <= status_code response < 600) ->
  json_loads (text response) = Some (PyDict envelope) ->
  (args_command args = Some "market" ->
   let req :=
     plain_get DEFAULT_BASE_URL ("/markets/" +:+ args_ticker args) None in
   transport (sent (world t)) req = inr response ->
   main args t =
     (inr tt,
      mkTerminal (after_sending req (world t))
        (json_dumps (default (PyDict ∅) (envelope !! "market")) :: stdout t)))
  /\ (args_command args = Some "orderbook" ->
      let req :=
        plain_get DEFAULT_BASE_URL
          ("/markets/" +:+ args_ticker args +:+ "/orderbook")
          (Some (orderbook_query None)) in
      transport (sent (world t)) req = inr response ->
      main args t =
        (inr tt,
         mkTerminal (after_sending req (world t))
           (json_dumps (default (PyDict ∅) (envelope !! "orderbook"))
              :: stdout t))).
Proof.
  intros Hload Hstatus Hjson.
  destruct (script_client_production t Hload) as (client & Hclient & Hbase).
  destruct (public_runs client (world t)) as (_ & Hmarket & Horderbook & _).
  pose proof (outcome_value response _ Hstatus Hjson) as Hout.
  split; intros Hcommand req Ht; unfold main, command_is; rewrite Hcommand;
    simpl; rewrite (cli_bind_inr _ _ t client t Hclient);
    unfold cli_bind; rewrite call_run.
  - rewrite Hmarket, Hbase. fold req. rewrite Ht, Hout. reflexivity.
  - rewrite Horderbook, Hbase. fold req. rewrite Ht, Hout. reflexivity.
Qed.

(** X23: the [balance] subcommand, with a key identifier and a PEM text the
    loader accepts in the environment, once the signature was obtained and
    the transport answers the signed GET of [/portfolio/balance] with a
    response that is not an HTTP error and parses to an object.  The amount
    is the ["balance"] field of the envelope, or 0 when the field is
    missing.  When the amount can be divided by 100 the script makes one
    [print] call, [Balance: $] followed by the amount with two decimals,
    and returns; when the division raises (a [TypeError] for a value that
    is not a number, an [OverflowError] for an integer too large for a
    float) the script raises that exception and prints nothing. *)
Theorem balance_is_printed_or_rejected
    t args key_id pem key signature response envelope :
  args_command args = Some "balance" ->
  environ (world t) !! "KALSHI_API_KEY" = Some key_id ->
  key_id <> EmptyString ->
  environ (world t) !! "KALSHI_PRIVATE_KEY" = Some pem ->
  pem <> EmptyString ->
  load_pem_private_key (encode pem) = inr key ->
  let message := signed_message (world t) "GET" "/portfolio/balance" in
  let req :=
    signed_request DEFAULT_BASE_URL (world t) key_id signature "GET"
      "/portfolio/balance" None None in
  rsa_sign key message = inr signature ->
  transport (sent (world t)) req = inr response ->
  ~ (400 <= status_code response < 600) ->
  json_loads (text response) = Some (PyDict envelope) ->
  let amount := default (PyInt 0) (envelope !! "balance") in
  let w' := after_sending req (after_signing message (world t)) in
  main args t =
    match format_dollars amount with
    | inr dollars =>
        (inr tt, mkTerminal w' (("Balance: $" +:+ dollars) :: stdout t))
    | inl e => (inl e, mkTerminal w' (stdout t))
    end.
Proof.
  intros Hcommand Hid Hne Hpem Hpne Hload message req Hsig Ht Hstatus Hjson
    amount w'.
  pose (client := mkClient (Some key_id) (Some pem) DEFAULT_BASE_URL
                    (Some key)).
  assert (Hclient : call (__init__ None None None false) t = (inr client, t)).
  { rewrite script_client, Hid, Hpem.
    apply String.eqb_neq in Hpne. now rewrite Hpne, Hload. }
  destruct (signed_runs client (world t) key_id key eq_refl Hne eq_refl)
    as (Hbalance & _).
  specialize (Hbalance signature Hsig). simpl in Hbalance.
  fold req message in Hbalance.
  rewrite Ht, (outcome_value response _ Hstatus Hjson) in Hbalance.
  unfold main, command_is. rewrite Hcommand. simpl.
  rewrite (cli_bind_inr _ _ t client t Hclient).
  unfold cli_bind. rewrite call_run, Hbalance. simpl.
  fold amount. now destruct (format_dollars amount).
Qed.

End Script.


(** A signing primitive that refuses: [create_order] raises its exception
    and the transport's log stays empty. *)
Lemma signing_failure_witness :
  let run :=
    create_order (ext := Doubles.unsigning) (Doubles.keyed Doubles.unsigning tt)
      "X" "yes" "buy" 5 42 "limit" Doubles.quiet in
  run.1 = inl (CryptoError "cannot sign")
  /\ sent run.2 = []
  /\ signed run.2 = [encode "1700000000000POST/portfolio/orders"].
Proof.
  destruct (signing_failure_sends_nothing (ext := Doubles.unsigning)
              (Doubles.keyed Doubles.unsigning tt) Doubles.quiet "key-id" tt
              (CryptoError "cannot sign") eq_refl ltac:(discriminate) eq_refl
              (fun _ => eq_refl)) as (_ & _ & _ & _ & Horder & _).
  intros run. subst run. rewrite (Horder "X" "yes" "buy" 5 42 "limit").
  repeat split.
Defined.

(** A signed [DELETE]: the request that is sent names the path that was
    signed. *)
Lemma authenticated_round_witness :
  let run :=
    cancel_order (ext := Doubles.sample) Doubles.trader "order-1"
      Doubles.quiet in
  signed run.2 = [encode "1700000000000DELETE/portfolio/orders/order-1"]
  /\ (exists req,
        sent run.2 = [req]
        /\ req_method req = "DELETE"
        /\ req_url req = DEFAULT_BASE_URL +:+ "/portfolio/orders/order-1"
        /\ req_headers req !! "KALSHI-ACCESS-TIMESTAMP" =
             Some "1700000000000")
  /\ ticks run.2 = 1%nat.
Proof.
  destruct (authenticated_round (ext := Doubles.sample) Doubles.trader
              Doubles.quiet "key-id" tt (fun message => message) eq_refl
              ltac:(discriminate) eq_refl (fun _ => eq_refl))
    as (_ & _ & _ & _ & _ & Hcancel).
  intros run. subst run. rewrite (Hcancel "order-1").
  split; [reflexivity |]. split; [| reflexivity].
  eexists. split; [reflexivity |]. repeat split.
Defined.

(** A market order at two different prices is one and the same call. *)
Lemma price_ignored_witness :
  create_order (ext := Doubles.sample) Doubles.trader "X" "yes" "buy" 5 42
    "market" =
  create_order (ext := Doubles.sample) Doubles.trader "X" "yes" "buy" 5 99
    "market".
Proof.
  apply (price_ignored_unless_limit (ext := Doubles.sample)).
  discriminate.
Defined.

(** Calling [get_orderbook] a second time returns what the first call
    returned. *)
Lemma repeatable_witness :
  (get_orderbook (ext := Doubles.sample) Doubles.anonymous "X" None
     (get_orderbook (ext := Doubles.sample) Doubles.anonymous "X" None
        Doubles.quiet).2).1 =
    (get_orderbook (ext := Doubles.sample) Doubles.anonymous "X" None
       Doubles.quiet).1.
Proof.
  destruct (public_results_are_repeatable (ext := Doubles.sample)
              Doubles.anonymous Doubles.quiet Doubles.quiet
              (fun _ _ _ => eq_refl)) as (_ & _ & _ & _ & _ & _ & Hagain).
  exact (Hagain "X" None).
Defined.

(** A loader that rejects the PEM text: there is no client. *)
Lemma private_key_follows_pem_witness :
  __init__ (ext := Doubles.rejecting) (Some "key-id") (Some "pem") None false
    Doubles.quiet = (inl (ValueError "bad key"), Doubles.quiet)
  /\ exists self,
       __init__ (ext := Doubles.rejecting) (Some "key-id") None None false
         Doubles.quiet = (inr self, Doubles.quiet)
       /\ _private_key self = None.
Proof.
  destruct (private_key_follows_pem (ext := Doubles.rejecting)
              (Some "key-id") (Some "pem") None false Doubles.quiet)
    as (_ & _ & _ & Hreject).
  destruct (private_key_follows_pem (ext := Doubles.rejecting)
              (Some "key-id") None None false Doubles.quiet)
    as (_ & Hnone & _).
  split.
  - exact (Hreject "pem" (ValueError "bad key") eq_refl ltac:(discriminate)
             eq_refl).
  - exact (Hnone eq_refl).
Defined.

(** A client built from a key identifier alone cannot fetch the balance. *)
Lemma unconfigured_client_witness :
  exists self,
    __init__ (ext := Doubles.sample) (Some "key-id") None None false
      Doubles.quiet = (inr self, Doubles.quiet)
    /\ get_balance self Doubles.quiet =
         (inl (ValueError auth_required), Doubles.quiet).
Proof.
  pose (self := mkClient (ext := Doubles.sample) (Some "key-id") None
                  DEFAULT_BASE_URL None).
  assert (Hrun : __init__ (ext := Doubles.sample) (Some "key-id") None None
                   false Doubles.quiet = (inr self, Doubles.quiet)).
  { reflexivity. }
  exists self. split; [exact Hrun |].
  destruct (unconfigured_client_cannot_authenticate (ext := Doubles.sample)
              _ _ _ _ _ _ _ Hrun (or_intror eq_refl) Doubles.quiet)
    as (Hbalance & _).
  exact Hbalance.
Defined.

(** A client built from the environment signs. *)
Lemma configured_client_witness :
  exists self,
    __init__ (ext := Doubles.sample) None None None false
      Doubles.configured = (inr self, Doubles.configured)
    /\ signed (_get_auth_headers self "GET" "/portfolio/balance"
                 Doubles.configured).2 =
         [encode "1700000000000GET/portfolio/balance"].
Proof.
  pose (self := Doubles.keyed Doubles.sample tt).
  assert (Hrun : __init__ (ext := Doubles.sample) None None None false
                   Doubles.configured = (inr self, Doubles.configured)).
  { reflexivity. }
  exists self. split; [exact Hrun |].
  rewrite (configured_client_signs (ext := Doubles.sample) _ _ _ _ _ _ _ Hrun
             eq_refl eq_refl "GET" "/portfolio/balance" Doubles.configured).
  reflexivity.
Defined.

(** A rejected key in the environment: [markets] fails, the bare invocation
    prints the usage text. *)
Lemma rejected_environment_key_witness :
  let t := Doubles.terminal (Doubles.with_env "KALSHI_PRIVATE_KEY" "pem") in
  main (ext := Doubles.rejecting) (console := Doubles.plain_console)
    (Doubles.namespace (Some "markets")) t =
    (inl (Raised (ValueError "bad key")), t)
  /\ main (ext := Doubles.rejecting) (console := Doubles.plain_console)
       (Doubles.namespace None) t =
       (inr tt, mkTerminal (world t) ["usage: kalshi_client.py"]).
Proof.
  intros t.
  pose proof (rejected_environment_key_stops_every_command
                (ext := Doubles.rejecting) (console := Doubles.plain_console)
                t "pem" (ValueError "bad key") eq_refl ltac:(discriminate)
                eq_refl) as Hmain.
  exact (conj (Hmain (Doubles.namespace (Some "markets")))
              (Hmain (Doubles.namespace None))).
Defined.

(** No credentials in the environment: [balance] raises before anything
    happens. *)
Lemma script_private_commands_witness :
  main (ext := Doubles.sample) (console := Doubles.plain_console)
    (Doubles.namespace (Some "balance")) (Doubles.terminal Doubles.quiet) =
    (inl (Raised (ValueError auth_required)), Doubles.terminal Doubles.quiet).
Proof.
  apply (script_private_commands_need_environment (ext := Doubles.sample)
           (console := Doubles.plain_console)).
  - left. reflexivity.
  - intros pem Hpem. discriminate Hpem.
  - left. reflexivity.
Defined.

(** A 200 response whose body parses to the empty object: every field is
    missing, [get_market] gives the empty mapping and, with credentials,
    [get_positions] the empty list. *)
Lemma missing_field_witness :
  (get_market (ext := Doubles.sample) Doubles.anonymous "X"
     Doubles.quiet).1 = inr (PyDict ∅)
  /\ (get_positions (ext := Doubles.sample) Doubles.trader None "unsettled"
        Doubles.quiet).1 = inr (PyList []).
Proof.
  assert (Hstatus : ~ (400 <= status_code Doubles.ok_response < 600)).
  { simpl. lia. }
  destruct (missing_field_defaults_to_empty (ext := Doubles.sample)
              Doubles.anonymous Doubles.quiet Doubles.ok_response ∅ Hstatus
              eq_refl) as (_ & Hmarket & _).
  destruct (missing_field_defaults_to_empty (ext := Doubles.sample)
              Doubles.trader Doubles.quiet Doubles.ok_response ∅ Hstatus
              eq_refl) as (_ & _ & _ & _ & _ & _ & Hauth).
  destruct (Hauth "key-id" tt eq_refl ltac:(discriminate) eq_refl)
    as (Hpositions & _).
  split.
  - now rewrite (Hmarket "X" eq_refl eq_refl).
  - now rewrite (Hpositions None "unsettled" _ eq_refl eq_refl eq_refl).
Defined.

(** An unreachable transport: [get_market] and, with credentials,
    [get_balance] raise the transport's exception after their one request. *)
Lemma transport_failure_witness :
  (get_market (ext := Doubles.offline) Doubles.anonymous "X"
     Doubles.quiet).1 = inl (ConnectionError "unreachable")
  /\ length (sent (get_market (ext := Doubles.offline) Doubles.anonymous "X"
                     Doubles.quiet).2) = 1%nat
  /\ (get_balance (ext := Doubles.offline) (Doubles.keyed Doubles.offline tt)
        Doubles.quiet).1 = inl (ConnectionError "unreachable").
Proof.
  destruct (transport_failure_propagates (ext := Doubles.offline)
              Doubles.anonymous Doubles.quiet (ConnectionError "unreachable"))
    as (_ & Hmarket & _).
  destruct (transport_failure_propagates (ext := Doubles.offline)
              (Doubles.keyed Doubles.offline tt) Doubles.quiet
              (ConnectionError "unreachable"))
    as (_ & _ & _ & _ & _ & _ & Hauth).
  destruct (Hauth "key-id" tt eq_refl ltac:(discriminate) eq_refl)
    as (Hbalance & _).
  rewrite (Hmarket "X" eq_refl).
  rewrite (Hbalance _ eq_refl eq_refl).
  split; [reflexivity |]. split; reflexivity.
Defined.

(** A 200 response whose body does not parse. *)
Lemma unparseable_body_witness :
  (get_markets (ext := Doubles.garbled) Doubles.anonymous 10 "open" None None
     Doubles.quiet).1 = inl (JSONDecodeError "{}").
Proof.
  assert (Hstatus : ~ (400 <= status_code Doubles.ok_response < 600)).
  { simpl. lia. }
  destruct (unparseable_body_raises (ext := Doubles.garbled)
              Doubles.anonymous Doubles.quiet Doubles.ok_response Hstatus
              eq_refl) as (Hmarkets & _).
  now rewrite (Hmarkets 10 "open" None None eq_refl).
Defined.

(** An envelope with a ["markets"] field: [get_markets] returns the field. *)
Lemma present_field_witness :
  (get_markets (ext := Doubles.listing_markets) Doubles.anonymous 10 "open"
     None None Doubles.quiet).1 =
    inr (PyList [PyDict Doubles.a_market; PyDict Doubles.a_market]).
Proof.
  assert (Hstatus : ~ (400 <= status_code Doubles.ok_response < 600)).
  { simpl. lia. }
  destruct (present_field_is_returned (ext := Doubles.listing_markets)
              Doubles.anonymous Doubles.quiet Doubles.ok_response _ Hstatus
              eq_refl) as (Hmarkets & _).
  now rewrite (Hmarkets 10 "open" None None _ eq_refl eq_refl).
Defined.

(** A body that parses to a list: [get_market] raises naming the type,
    [get_balance] returns the list. *)
Lemma non_object_witness :
  (get_market (ext := Doubles.listy) Doubles.anonymous "X" Doubles.quiet).1 =
    inl (AttributeError "'list' object has no attribute 'get'")
  /\ (get_balance (ext := Doubles.listy) (Doubles.keyed Doubles.listy tt)
        Doubles.quiet).1 = inr (PyList []).
Proof.
  assert (Hstatus : ~ (400 <= status_code Doubles.ok_response < 600)).
  { simpl. lia. }
  assert (Hshape : forall envelope, PyList [] <> PyDict envelope).
  { intros envelope H. discriminate H. }
  destruct (non_object_response (ext := Doubles.listy) Doubles.anonymous
              Doubles.quiet Doubles.ok_response (PyList []) Hstatus eq_refl
              Hshape) as (_ & Hmarket & _).
  destruct (non_object_response (ext := Doubles.listy)
              (Doubles.keyed Doubles.listy tt) Doubles.quiet
              Doubles.ok_response (PyList []) Hstatus eq_refl Hshape)
    as (_ & _ & _ & _ & _ & _ & Hauth).
  destruct (Hauth "key-id" tt eq_refl ltac:(discriminate) eq_refl)
    as (Hbalance & _).
  rewrite (Hmarket "X" eq_refl).
  rewrite (Hbalance _ eq_refl eq_refl).
  split; reflexivity.
Defined.



(** Two markets are listed with three lines each. *)
Lemma markets_listing_witness :
  let run :=
    main (ext := Doubles.listing_markets) (console := Doubles.plain_console)
      (Doubles.namespace (Some "markets")) (Doubles.terminal Doubles.quiet) in
  run.1 = inr tt
  /\ rev (stdout run.2) =
       [ "X: Will X happen?"; "  Yes: 41" +:+ cent +:+ " - N/A" +:+ cent;
         EmptyString;
         "X: Will X happen?"; "  Yes: 41" +:+ cent +:+ " - N/A" +:+ cent;
         EmptyString ]
  /\ length (sent (world run.2)) = 1%nat.
Proof.
  assert (Hstatus : ~ (400 <= status_code Doubles.ok_response < 600)).
  { simpl. lia. }
  assert (Hlistable : listable Doubles.a_market).
  { split; eexists; reflexivity. }
  destruct (markets_are_listed_until_one_is_malformed
              (ext := Doubles.listing_markets)
              (console := Doubles.plain_console)
              (Doubles.terminal Doubles.quiet)
              (Doubles.namespace (Some "markets")) Doubles.ok_response _
              [Doubles.a_market; Doubles.a_market] eq_refl
              ltac:(intros pem Hpem; discriminate Hpem)
              eq_refl Hstatus eq_refl eq_refl) as [Hgood _].
  intros run. subst run.
  rewrite (Hgood (Forall_cons_2 _ _ _ Hlistable
                    (Forall_cons_2 _ _ _ Hlistable (Forall_nil_2 _)))).
  split; [reflexivity |]. split; reflexivity.
Defined.

(** The [market] subcommand makes one [print] call. *)
Lemma detail_commands_witness :
  let run :=
    main (ext := Doubles.sample) (console := Doubles.plain_console)
      (Doubles.namespace (Some "market")) (Doubles.terminal Doubles.quiet) in
  run.1 = inr tt /\ stdout run.2 = ["{}"].
Proof.
  assert (Hstatus : ~ (400 <= status_code Doubles.ok_response < 600)).
  { simpl. lia. }
  destruct (detail_commands_print_one_dump (ext := Doubles.sample)
              (console := Doubles.plain_console)
              (Doubles.terminal Doubles.quiet)
              (Doubles.namespace (Some "market")) Doubles.ok_response ∅
              ltac:(intros pem Hpem; discriminate Hpem) Hstatus eq_refl)
    as [Hmarket _].
  intros run. subst run. rewrite (Hmarket eq_refl eq_refl).
  split; reflexivity.
Defined.

(** A balance of 1234 cents is printed as 12.34 dollars. *)
Lemma balance_witness :
  let run :=
    main (ext := Doubles.funded) (console := Doubles.plain_console)
      (Doubles.namespace (Some "balance"))
      (Doubles.terminal Doubles.configured) in
  run.1 = inr tt /\ stdout run.2 = ["Balance: $12.34"].
Proof.
  assert (Hstatus : ~ (400 <= status_code Doubles.ok_response < 600)).
  { simpl. lia. }
  pose proof (balance_is_printed_or_rejected (ext := Doubles.funded)
                (console := Doubles.plain_console)
                (Doubles.terminal Doubles.configured)
                (Doubles.namespace (Some "balance")) "key-id" "pem" tt _
                Doubles.ok_response _ eq_refl eq_refl ltac:(discriminate)
                eq_refl ltac:(discriminate) eq_refl eq_refl eq_refl Hstatus
                eq_refl) as Hmain.
  intros run. subst run. rewrite Hmain.
  split; reflexivity.
Defined.
